(** * Finance-Apps: the workbook extraction and variance scripts

    A shallow embedding of the scripts [extract_final.py],
    [gen_final_transactions.py], [extract_correct.py], [extract_period1.py],
    [calc_corrected_variance.py] and [verify_variance.py], and of
    [gen_ts_transactions.py], which reads the file two of them write.

    Each script is a batch transform: it walks the rows of the
    "Transactions" sheet, guards each row, maps type and category, and
    appends a transaction record.  A sheet is a list of rows and a row a
    list of cell values; a script is a function from the sheet to either
    its output or the exception that stops it.

    Numbers: a Python [int] is an integer and a Python [float] is modelled
    by a rational ([Q]); rounding, infinities and NaN are outside the
    model.  Text: a Python [str] is a string of code points below 256. *)

From Stdlib Require Import Ascii String QArith Qabs Lqa.
From stdpp Require Import base strings list gmap pretty sorting.

Local Open Scope string_scope.

(** ** Python values and builtins *)

Module Py.

Inductive exn := ValueError | TypeError | AttributeError | IndexError | KeyError.

Inductive result (A : Type) : Type :=
| Ok (a : A)
| Raise (e : exn).
Arguments Ok {A} a.
Arguments Raise {A} e.

(** Sequencing: the first exception ends the computation. *)
Global Instance result_ret : MRet result := fun A a => Ok a.
Global Instance result_bind : MBind result := fun A B k m =>
  match m with
  | Ok a => k a
  | Raise e => Raise e
  end.

(** [datetime.datetime], compared field by field as Python does. *)
Record datetime := mkdatetime {
  year : N; month : N; day : N;
  hour : N; minute : N; second : N; microsecond : N
}.

Definition datetime_key (d : datetime) : list N :=
  [year d; month d; day d; hour d; minute d; second d; microsecond d].

Fixpoint lex_leb (a b : list N) : bool :=
  match a, b with
  | [], _ => true
  | _ :: _, [] => false
  | x :: a', y :: b' =>
      if (x <? y)%N then true
      else if (y <? x)%N then false
      else lex_leb a' b'
  end.

Definition datetime_leb (a b : datetime) : bool :=
  lex_leb (datetime_key a) (datetime_key b).

(** What a worksheet cell holds once openpyxl has read it. *)
Inductive value :=
| VNone
| VStr (s : string)
| VInt (z : Z)
| VFloat (q : Q)
| VBool (b : bool)
| VDate (d : datetime).

(** Truth value of an object: [None], the empty string, [0] and [False]
    are false. *)
Definition truthy (v : value) : bool :=
  match v with
  | VNone => false
  | VStr s => negb (String.eqb s "")
  | VInt z => negb (Z.eqb z 0)
  | VFloat q => negb (Qeq_bool q 0)
  | VBool b => b
  | VDate _ => true
  end.

Definition is_none (v : value) : bool :=
  match v with VNone => true | _ => false end.

Definition is_datetime (v : value) : bool :=
  match v with VDate _ => true | _ => false end.

(** [v == text] and [v == number]; a [bool] compares as 0 or 1. *)
Definition eq_str (v : value) (s : string) : bool :=
  match v with VStr t => String.eqb t s | _ => false end.

Definition eq_num (v : value) (q : Q) : bool :=
  match v with
  | VInt z => Qeq_bool (inject_Z z) q
  | VFloat x => Qeq_bool x q
  | VBool b => Qeq_bool (if b then 1 else 0) q
  | _ => false
  end.

(** [a < b] on numbers. *)
Definition Qlt_bool (a b : Q) : bool := negb (Qle_bool b a).

(** [a or b] on objects. *)
Definition or_else (a b : value) : value := if truthy a then a else b.

(** *** [str] methods *)

Definition is_space (c : ascii) : bool :=
  let n := nat_of_ascii c in
  ((9 <=? n)%nat && (n <=? 13)%nat) || ((28 <=? n)%nat && (n <=? 32)%nat)
  || (n =? 133)%nat || (n =? 160)%nat.

Definition lower_char (c : ascii) : ascii :=
  let n := nat_of_ascii c in
  if ((65 <=? n)%nat && (n <=? 90)%nat)
     || ((192 <=? n)%nat && (n <=? 222)%nat && negb (n =? 215)%nat)
  then ascii_of_nat (n + 32) else c.

Fixpoint lower (s : string) : string :=
  match s with
  | EmptyString => EmptyString
  | String c s' => String (lower_char c) (lower s')
  end.

Fixpoint lstrip_by (p : ascii -> bool) (s : string) : string :=
  match s with
  | EmptyString => EmptyString
  | String c s' => if p c then lstrip_by p s' else s
  end.

Fixpoint rstrip_by (p : ascii -> bool) (s : string) : string :=
  match s with
  | EmptyString => EmptyString
  | String c s' =>
      match rstrip_by p s' with
      | EmptyString => if p c then EmptyString else String c EmptyString
      | r => String c r
      end
  end.

Definition strip_by (p : ascii -> bool) (s : string) : string :=
  rstrip_by p (lstrip_by p s).

(** The double quote and the backslash, by code point. *)
Definition dquote : ascii := ascii_of_nat 34.
Definition backslash : ascii := ascii_of_nat 92.

(** [s] between double quotes. *)
Definition quoted (s : string) : string :=
  String dquote (s +:+ String dquote "").

(** [s.strip()], and [s.strip(q)] for [q] the double quote. *)
Definition strip (s : string) : string := strip_by is_space s.
Definition strip_quotes (s : string) : string :=
  strip_by (Ascii.eqb dquote) s.

Definition startswith (p s : string) : bool := String.prefix p s.

(** [p in s] on strings. *)
Fixpoint contains (p s : string) : bool :=
  String.prefix p s ||
  match s with
  | EmptyString => false
  | String _ s' => contains p s'
  end.

(** [s[:n]]. *)
Definition take_str (n : nat) (s : string) : string := String.substring 0 n s.

(** [s.replace(q, b + q)]: every double quote gets a backslash before it. *)
Fixpoint escape_quotes (s : string) : string :=
  match s with
  | EmptyString => EmptyString
  | String c s' =>
      if Ascii.eqb c dquote
      then String backslash (String c (escape_quotes s'))
      else String c (escape_quotes s')
  end.

(** *** Formatting *)

Definition pad2 (n : N) : string :=
  if (n <? 10)%N then "0" +:+ pretty n else pretty n.

Definition pad4 (n : N) : string :=
  if (n <? 10)%N then "000" +:+ pretty n
  else if (n <? 100)%N then "00" +:+ pretty n
  else if (n <? 1000)%N then "0" +:+ pretty n
  else pretty n.

Definition pad6 (n : N) : string :=
  if (n <? 10)%N then "00000" +:+ pretty n
  else if (n <? 100)%N then "0000" +:+ pretty n
  else if (n <? 1000)%N then "000" +:+ pretty n
  else if (n <? 10000)%N then "00" +:+ pretty n
  else if (n <? 100000)%N then "0" +:+ pretty n
  else pretty n.

(** [d.strftime('%Y-%m-%d')]. *)
Definition strftime_ymd (d : datetime) : string :=
  pad4 (year d) +:+ "-" +:+ pad2 (month d) +:+ "-" +:+ pad2 (day d).

(** [str(d)]: ISO format with a space, microseconds only when non-zero. *)
Definition str_datetime (d : datetime) : string :=
  strftime_ymd d +:+ " " +:+ pad2 (hour d) +:+ ":" +:+ pad2 (minute d)
  +:+ ":" +:+ pad2 (second d)
  +:+ (if (microsecond d =? 0)%N then "" else "." +:+ pad6 (microsecond d)).

(** The two conversions between text and floats are the interpreter's:
    [float(s)] on a string and [str(x)] on a float. *)
Class Runtime := {
  float_of_str : string -> option Q;
  str_of_float : Q -> string
}.

Section Conversions.
Context `{Runtime}.

(** [str(v)]. *)
Definition str (v : value) : string :=
  match v with
  | VNone => "None"
  | VStr s => s
  | VInt z => pretty z
  | VFloat q => str_of_float q
  | VBool b => if b then "True" else "False"
  | VDate d => str_datetime d
  end.

(** [float(v)]: [ValueError] on text that is no number, [TypeError] on
    [None] and on a datetime. *)
Definition float (v : value) : result Q :=
  match v with
  | VInt z => Ok (inject_Z z)
  | VFloat q => Ok q
  | VBool b => Ok (if b then 1 else 0)%Q
  | VStr s =>
      match float_of_str s with
      | Some q => Ok q
      | None => Raise ValueError
      end
  | VNone | VDate _ => Raise TypeError
  end.
End Conversions.

(** [v.lower()]: only a [str] has the method. *)
Definition lower_method (v : value) : result string :=
  match v with
  | VStr s => Ok (lower s)
  | _ => Raise AttributeError
  end.

End Py.

Import Py.

(** ** Rows, loops and the transaction record *)

(** A worksheet row is the list of its cell values from column A on, and
    a sheet the list of its rows, the header row first. *)
Abbreviation row := (list value).
Abbreviation sheet := (list (list value)).

(** [row[k]] on the tuple of a row. *)
Definition row_get (r : row) (k : nat) : result value :=
  match r !! k with
  | Some v => Ok v
  | None => Raise IndexError
  end.

(** [ws.max_column]: the width of the widest row, 1 for an empty sheet. *)
Definition max_column (sh : sheet) : nat :=
  Nat.max 1 (foldr Nat.max 0 (length <$> sh)).

(** [ws.iter_rows(values_only=True)]: every row comes as wide as the
    sheet, blank cells as [None]. *)
Definition pad_row (w : nat) (r : row) : row :=
  r ++ replicate (w - length r) VNone.

Definition iter_rows (sh : sheet) : list row :=
  pad_row (max_column sh) <$> sh.

(** [ws.cell(r, k + 1).value]: an absent cell reads as [None]. *)
Definition cell (r : row) (k : nat) : value := default VNone (r !! k).

(** A [for] loop over rows whose body updates the loop state; an exception
    in the body ends the loop. *)
Fixpoint for_each {S A : Type} (body : S -> A -> result S) (s : S) (l : list A)
  : result S :=
  match l with
  | [] => Ok s
  | a :: l' => s' ← body s a; for_each body s' l'
  end.

(** The transaction record (a [dict] in the scripts).  [linkedRuleId] is
    [None] when the key is absent, [Some VNone] when it holds [None]. *)
Module Txn.
Record t := mk {
  id : string;
  date : string;
  label : value;
  amount : value;
  type : string;
  category : string;
  notes : value;
  linkedRuleId : option value
}.
End Txn.

(** [json.dump] refuses a datetime; every other field value here is text,
    a number, a boolean or [None]. *)
Definition json_serializable (v : value) : bool := negb (is_datetime v).

Definition json_dump (l : list Txn.t) : result (list Txn.t) :=
  if forallb (fun t => json_serializable (Txn.label t)
                       && json_serializable (Txn.amount t)
                       && json_serializable (Txn.notes t)) l
  then Ok l else Raise TypeError.


(** [f"txn-{n}"]. *)
Definition txn_label (n : N) : string := "txn-" +:+ pretty n.

(** ** extract_final.py *)

Module ExtractFinal.
Section Script.
Context `{Runtime}.

(** [map_to_type_and_category(excel_type, excel_category)]. *)
Definition map_to_type_and_category (excel_type excel_category : value)
  : result (string * string) :=
  type_lower ←
    (if truthy excel_type
     then s ← lower_method excel_type; mret (strip s)
     else mret "");
  category_lower ←
    (s ← lower_method (or_else excel_category (VStr "")); mret (strip s));
  mret
    (if String.eqb type_lower "income" then ("income", "income")
     else if String.eqb type_lower "expense" then
       if contains "tithe" category_lower || contains "giving" category_lower
       then ("outflow", "giving")
       else if contains "bill" category_lower
               || contains "electricity" category_lower
               || contains "gas" category_lower
               || contains "water" category_lower
               || contains "internet" category_lower
               || contains "phone" category_lower
       then ("outflow", "bill")
       else if contains "saving" category_lower
               || contains "investment" category_lower
       then ("transfer", "savings")
       else if contains "allowance" category_lower
               || contains "house keep" category_lower
       then ("outflow", "allowance")
       else ("outflow", "other")
     else if String.eqb type_lower "transfer" then ("transfer", "savings")
     else ("outflow", "other")).

(** The loop state: the records so far and the next id. *)
Record state := mkstate { transactions : list Txn.t; txn_id : N }.

Definition init : state := mkstate [] 1.

(** The body of the row loop, for a row after the header. *)
Definition body (st : state) (r : row) : result state :=
  if negb (existsb truthy r) then mret st else
  date_val ← row_get r 0;
  type_val ← row_get r 1;
  category_val ← row_get r 2;
  description ← row_get r 3;
  amount ← row_get r 4;
  r7 ← row_get r 7;
  let notes :=
    if truthy r7 && negb (startswith "=" (str r7)) then r7 else VStr "" in
  if negb (truthy date_val) || is_none amount then mret st else
  let date_str :=
    match date_val with
    | VDate d => strftime_ymd d
    | _ => str date_val
    end in
  mapped ← map_to_type_and_category type_val category_val;
  match float amount with
  | Raise _ => mret st
  | Ok amount_float =>
      let txn :=
        {| Txn.id := txn_label (txn_id st);
           Txn.date := date_str;
           Txn.label := VStr (if truthy description then str description else "");
           Txn.amount := VFloat amount_float;
           Txn.type := mapped.1;
           Txn.category := mapped.2;
           Txn.notes := VStr (if truthy notes then strip (str notes) else "");
           Txn.linkedRuleId := None |} in
      mret (mkstate (transactions st ++ [txn]) (txn_id st + 1))
  end.

(** The whole loop: the first row is the header.  The script wraps it in
    [try ... except Exception], so an exception leaves no output. *)
Definition extract (sh : sheet) : result (list Txn.t) :=
  st ← for_each body init (tail (iter_rows sh)); mret (transactions st).
End Script.
End ExtractFinal.

(** ** gen_final_transactions.py *)

Module GenFinal.

(** [CATEGORY_MAPPING]: exact keys, looked up with [dict.get]. *)
Definition CATEGORY_MAPPING : gmap string string :=
  list_to_map
    [ ("Income - FM", "income");
      ("Income - McD", "income");
      ("Income - Outlier", "income");
      ("Income - Gifts", "income");
      ("Tithe", "giving");
      ("Offerings", "giving");
      ("Charity - Perez Uni", "giving");
      ("Charity - JPC Utilities", "giving");
      ("Donations (Variable)", "giving");
      ("Rent", "bill");
      ("Insurance", "bill");
      ("Road Tax", "bill");
      ("Water Bill", "bill");
      ("Community Fibre / Internet", "bill");
      ("Electricity & Gas", "bill");
      ("iPhone Payments", "bill");
      ("Parents", "bill");
      ("Credit Card Payment", "bill");
      ("Fuel", "bill");
      ("House Keep", "bill");
      ("Laptop", "bill");
      ("One-Off Giving (Christmas)", "bill");
      ("Food", "bill");
      ("Others", "bill");
      ("Savings Transfer", "savings") ].

Definition period1_start : datetime := mkdatetime 2025 12 22 0 0 0 0.
Definition period1_end : datetime := mkdatetime 2026 1 25 0 0 0 0.

(** [category_totals], a [defaultdict(float)]. *)
Definition add_total (c : string) (a : Q) (m : gmap string Q) : gmap string Q :=
  <[c := (default 0 (m !! c) + a)%Q]> m.

Record state := mkstate {
  transactions : list Txn.t;
  txn_id : N;
  category_totals : gmap string Q
}.

Definition init : state := mkstate [] 0 ∅.

Section Script.
Context `{Runtime}.

(** Type and category of a row that passed the guards, with the amount
    that is recorded: the [if amount > 0 / elif / else] of the loop. *)
Definition classify (amount : Q) (type_val : value) (col_c_str : string)
  : string * Q * string :=
  if Qlt_bool 0 amount then ("income", amount, "income")
  else if truthy type_val && contains "Transfer" (str type_val)
  then ("transfer", Qabs amount, default "savings" (CATEGORY_MAPPING !! col_c_str))
  else ("outflow", Qabs amount, default "bill" (CATEGORY_MAPPING !! col_c_str)).

(** The body of the loop over sheet rows 2 to [max_row]. *)
Definition body (st : state) (r : row) : result state :=
  let date_val := cell r 0 in
  let type_val := cell r 1 in
  let col_c_val := cell r 2 in
  let label_val := cell r 3 in
  let amount_val := cell r 4 in
  if negb (forallb truthy [date_val; col_c_val; amount_val]) then mret st else
  match date_val with
  | VDate d =>
      if negb (datetime_leb period1_start d && datetime_leb d period1_end)
      then mret st else
      if eq_num amount_val 0 then mret st else
      match float amount_val with
      | Raise _ => mret st
      | Ok amount =>
          let date_str := strftime_ymd d in
          let col_c_str := strip (str col_c_val) in
          let '(txn_type, amount, category) := classify amount type_val col_c_str in
          let txn_id := (txn_id st + 1)%N in
          let txn :=
            {| Txn.id := txn_label txn_id;
               Txn.date := date_str;
               Txn.label := label_val;
               Txn.amount := VFloat amount;
               Txn.type := txn_type;
               Txn.category := category;
               Txn.notes := VStr col_c_str;
               Txn.linkedRuleId := None |} in
          mret (mkstate (transactions st ++ [txn]) txn_id
                        (add_total category amount (category_totals st)))
      end
  | _ => mret st
  end.

(** [txn[k].replace(...)]: only a [str] has the method. *)
Definition replace_quotes (v : value) : result string :=
  match v with
  | VStr s => Ok (escape_quotes s)
  | _ => Raise AttributeError
  end.

(** One line of the TypeScript array; the last field is the literal
    [undefined] for every record. *)
Definition ts_line (t : Txn.t) : result string :=
  label ← replace_quotes (Txn.label t);
  notes ← replace_quotes (Txn.notes t);
  mret ("    { id: " +:+ quoted (Txn.id t)
        +:+ ", date: " +:+ quoted (Txn.date t)
        +:+ ", label: " +:+ quoted label
        +:+ ", amount: " +:+ str (Txn.amount t)
        +:+ ", type: " +:+ quoted (Txn.type t)
        +:+ ", category: " +:+ quoted (Txn.category t)
        +:+ ", notes: " +:+ quoted notes
        +:+ ", linkedRuleId: undefined },").

(** What one run leaves behind: the JSON file, and the TypeScript lines
    unless building them raised. *)
Record output := mkoutput {
  json : list Txn.t;
  ts_lines : result (list string)
}.

Definition extract (sh : sheet) : result output :=
  st ← for_each body init (tail sh);
  js ← json_dump (transactions st);
  mret (mkoutput js (mapM ts_line js)).
End Script.
End GenFinal.

(** ** extract_correct.py *)

Module ExtractCorrect.

(** [category_to_app]: exact keys. *)
Definition category_to_app : gmap string string :=
  list_to_map
    [ ("Rent", "bill");
      ("Insurance", "bill");
      ("Road Tax", "bill");
      ("Water Bill", "bill");
      ("Electricity & Gas", "bill");
      ("Community Fibre / Internet", "bill");
      ("iPhone Payments", "bill");
      ("Parents", "bill");
      ("Credit Card Payment", "bill");
      ("Fuel", "bill");
      ("Laptop", "bill");
      ("Tithe", "giving");
      ("Offerings", "giving");
      ("Charity - Perez Uni", "giving");
      ("Charity - JPC Utilities", "giving");
      ("Donations (Variable)", "giving");
      ("House Keep", "allowance");
      ("Others", "allowance");
      ("Uber - TfL", "allowance");
      ("One-Off Giving (Christmas)", "other");
      ("Savings Transfer", "savings") ].

(** An entry of [app_category_totals] and of [unmapped]. *)
Record tally := mktally { count : N; total : Q }.

Definition bump (k : string) (a : Q) (m : gmap string tally)
  : gmap string tally :=
  let old := default (mktally 0 0) (m !! k) in
  <[k := mktally (count old + 1) (total old + a)%Q]> m.

Record state := mkstate {
  transactions : list Txn.t;
  app_category_totals : gmap string tally;
  unmapped : gmap string tally
}.

Definition init : state := mkstate [] ∅ ∅.

(** [sort(key=date, reverse=True)]: a stable sort, latest date first;
    records with equal dates keep their order. *)
Definition date_geb (a b : Txn.t) : bool :=
  String.leb (Txn.date b) (Txn.date a).

Fixpoint insert_desc (t : Txn.t) (l : list Txn.t) : list Txn.t :=
  match l with
  | [] => [t]
  | u :: l' => if date_geb t u then t :: l else u :: insert_desc t l'
  end.

Definition sort_desc (l : list Txn.t) : list Txn.t :=
  foldr insert_desc [] l.

Section Script.
Context `{Runtime}.

(** The body of the loop over sheet rows 2 to 1200. *)
Definition body (st : state) (r : row) : result state :=
  date ← row_get r 0;
  txn_type ← row_get r 1;
  category ← row_get r 2;
  description ← row_get r 3;
  amount ← row_get r 4;
  period ← row_get r 8;
  if negb (eq_num period 1) || negb (truthy date) || negb (truthy amount)
  then mret st else
  match date with
  | VDate d =>
      let date_str := strftime_ymd d in
      let category_str := if truthy category then str category else "" in
      '(final_type, app_cat, unmapped') ←
        (if eq_str txn_type "Income" then
           mret ("income", "income", unmapped st)
         else if eq_str txn_type "Transfer" then
           mret ("transfer", "savings", unmapped st)
         else
           match category_to_app !! category_str with
           | Some c => mret ("outflow", c, unmapped st)
           | None =>
               a ← float amount;
               mret ("outflow", "other", bump category_str (Qabs a) (unmapped st))
           end);
      let label := str (or_else description (or_else category (VStr ""))) in
      a ← float amount;
      let txn :=
        {| Txn.id := txn_label (N.of_nat (length (transactions st)) + 1);
           Txn.date := date_str;
           Txn.label := VStr label;
           Txn.amount := VFloat (Qabs a);
           Txn.type := final_type;
           Txn.category := app_cat;
           Txn.notes := VStr category_str;
           Txn.linkedRuleId :=
             Some (if String.eqb app_cat "savings" then VStr "savings" else VNone) |} in
      mret (mkstate (transactions st ++ [txn])
                    (bump app_cat (Qabs a) (app_category_totals st))
                    unmapped')
  | _ => mret st
  end.

(** What the run reports and writes. *)
Record output := mkoutput {
  json : list Txn.t;
  totals : gmap string tally;
  unmapped_report : gmap string tally
}.

(** [iter_rows(min_row=2, max_row=1200)]: always rows 2 to 1200; past the
    end of the sheet the rows are blank, as wide as the sheet. *)
Definition rows_2_to_1200 (sh : sheet) : list row :=
  take 1199 (tail (iter_rows sh)
             ++ replicate 1199 (replicate (max_column sh) VNone)).

Definition extract (sh : sheet) : result output :=
  st ← for_each body init (rows_2_to_1200 sh);
  mret (mkoutput (sort_desc (transactions st))
                 (app_category_totals st)
                 (unmapped st)).
End Script.
End ExtractCorrect.

(** ** extract_period1.py *)

Module ExtractPeriod1.

Definition category_map : gmap string string :=
  list_to_map
    [ ("Income - FM", "income");
      ("Income - Outlier", "income");
      ("Income - Interest", "income");
      ("Income - Gift", "income");
      ("Electricity & Gas", "bill");
      ("Water", "bill");
      ("Internet", "bill");
      ("Mobile", "bill");
      ("Car Insurance", "bill");
      ("Tithe", "giving");
      ("Offerings", "giving");
      ("Gifts", "giving");
      ("Charity", "giving");
      ("Food", "allowance");
      ("House Keep", "allowance");
      ("Others", "allowance");
      ("Savings", "savings") ].

Definition type_map : gmap string string :=
  list_to_map
    [ ("Income", "income"); ("Expense", "outflow"); ("Transfer", "transfer") ].

(** [d.get(v, dflt)] with a cell as key: only text can equal a key. *)
Definition get_cell (d : gmap string string) (v : value) (dflt : string)
  : string :=
  match v with
  | VStr s => default dflt (d !! s)
  | _ => dflt
  end.

Record state := mkstate { transactions : list Txn.t; txn_id : N }.

Definition init : state := mkstate [] 1.

Section Script.
Context `{Runtime}.

(** The body of the loop over sheet rows 2 to [max_row]. *)
Definition body (st : state) (r : row) : result state :=
  let period := cell r 8 in
  if negb (eq_num period 1) then mret st else
  let date_val := cell r 0 in
  let type_val := cell r 1 in
  let category_val := cell r 2 in
  let desc_val := cell r 3 in
  let amount_val := cell r 4 in
  let notes_val := cell r 7 in
  if negb (truthy date_val) || is_none amount_val then mret st else
  let date_str :=
    match date_val with
    | VDate d => strftime_ymd d
    | _ => take_str 10 (str date_val)
    end in
  let app_category := get_cell category_map category_val "other" in
  let app_type := get_cell type_map type_val "outflow" in
  let app_category :=
    if String.eqb app_type "income" then "income"
    else if String.eqb app_type "transfer" then "savings"
    else app_category in
  let txn :=
    {| Txn.id := txn_label (txn_id st);
       Txn.date := date_str;
       Txn.label := if truthy desc_val then desc_val else VStr "Transaction";
       Txn.amount := amount_val;
       Txn.type := app_type;
       Txn.category := app_category;
       Txn.notes := if truthy notes_val then notes_val else VStr "";
       Txn.linkedRuleId :=
         if String.eqb app_type "transfer" && String.eqb app_category "savings"
         then Some (VStr "savings") else None |} in
  mret (mkstate (transactions st ++ [txn]) (txn_id st + 1)).

(** [sum(t['amount'] for t in ... if t['type'] == ty)]: starts from the
    integer 0; adding text, [None] or a datetime raises [TypeError]. *)
Definition add_value (acc : Q) (v : value) : result Q :=
  match v with
  | VInt z => Ok (acc + inject_Z z)%Q
  | VFloat q => Ok (acc + q)%Q
  | VBool b => Ok (acc + (if b then 1 else 0))%Q
  | _ => Raise TypeError
  end.

Definition sum_of_type (ty : string) (l : list Txn.t) : result Q :=
  for_each add_value 0%Q
    (Txn.amount <$> filter (fun t => Txn.type t = ty) l).

Record output := mkoutput {
  json : list Txn.t;
  income_total : Q;
  expense_total : Q;
  transfer_total : Q
}.

Definition extract (sh : sheet) : result output :=
  st ← for_each body init (tail sh);
  let l := transactions st in
  i ← sum_of_type "income" l;
  e ← sum_of_type "outflow" l;
  t ← sum_of_type "transfer" l;
  js ← json_dump l;
  mret (mkoutput js i e t).
End Script.
End ExtractPeriod1.

(** ** The variance scripts *)

(** [status = OVER if variance > 5 else UNDER if variance < -5 else OK]. *)
Definition status_of (variance : Q) : string :=
  if Qlt_bool 5 variance then "OVER"
  else if Qlt_bool variance (-5) then "UNDER"
  else "OK".

(** One line of the variance table. *)
Record report_row := mkrow {
  row_category : string;
  row_budget : Q;
  row_actual : Q;
  row_variance : Q;
  row_variance_pct : Q;
  row_status : string
}.

(** The body of the variance loop, given the budget and the actual. *)
Definition variance_row (cat : string) (budget actual : Q) : report_row :=
  let variance := (actual - budget)%Q in
  let variance_pct :=
    if negb (Qeq_bool budget 0) then ((variance / Qabs budget) * 100)%Q else 0%Q in
  mkrow cat budget actual variance variance_pct (status_of variance).

(** [sum(d.values())] of a dict literal. *)
Definition sum_values (d : list (string * Q)) : Q :=
  foldl Qplus 0%Q (d.*2).

(** ** calc_corrected_variance.py *)

Module CalcVariance.

(** One tuple of [re.findall]: the eight groups as captured, the quotes
    of the quoted groups included. *)
Record found := mkfound {
  g_id : string; g_date : string; g_label : string; g_amount : string;
  g_type : string; g_category : string; g_notes : string; g_linked : string
}.

(** A value of the [transactions] dict. *)
Record parsed := mkparsed {
  date : string; label : string; amount : Q;
  type : string; category : string; notes : string
}.

(** [d[k] = v] on an insertion-ordered dict: a key already present keeps
    its place. *)
Fixpoint dict_set {V} (k : string) (v : V) (d : list (string * V))
  : list (string * V) :=
  match d with
  | [] => [(k, v)]
  | (k', v') :: d' =>
      if String.eqb k k' then (k, v) :: d' else (k', v') :: dict_set k v d'
  end.

(** The [actuals] accumulation for one record. *)
Definition accumulate (actuals : gmap string Q) (txn : parsed) : gmap string Q :=
  let cat := category txn in
  let amt := amount txn in
  let actuals :=
    match actuals !! cat with
    | None => <[cat := 0%Q]> actuals
    | Some _ => actuals
    end in
  if String.eqb (type txn) "income" then
    <["income" := (default 0 (actuals !! "income") + amt)%Q]> actuals
  else if String.eqb (type txn) "transfer" then actuals
  else <[cat := (default 0 (actuals !! cat) + amt)%Q]> actuals.

Definition actuals_of (transactions : list (string * parsed)) : gmap string Q :=
  foldl accumulate ∅ (transactions.*2).

(** The table of actual totals that is printed: the categories that
    have an entry, in this order. *)
Definition actual_totals (actuals : gmap string Q) : list (string * Q) :=
  omap (fun cat => pair cat <$> actuals !! cat)
       ["income"; "bill"; "giving"; "allowance"; "savings"; "buffer"; "other"].

Definition income_budget : Q := 4700.

Definition bill_items : list (string * Q) :=
  [ ("Rent", 550); ("Insurance", 175); ("Road Tax", 34); ("Water Bill", 93);
    ("Electricity & Gas", 200); ("Community Fibre / Internet", 37);
    ("iPhone Payments", 108); ("Parents", 140); ("Credit Card Payment", 400);
    ("Fuel", 100); ("House Keep", 560); ("Laptop", 43);
    ("One-Off Giving (Christmas)", 500) ]%Q.
Definition bill_budget : Q := sum_values bill_items.

Definition giving_items : list (string * Q) :=
  [ ("Tithe", 410); ("Offerings", 165); ("Charity - Perez Uni", 50);
    ("Charity - JPC Utilities", 100); ("Donations (Variable)", 90) ]%Q.
Definition giving_budget : Q := sum_values giving_items.

Definition allowance_budget : Q := 150 + 150.
Definition savings_budget : Q := 1050.

Definition budgets : gmap string Q :=
  list_to_map
    [ ("income", income_budget); ("bill", bill_budget);
      ("giving", giving_budget); ("allowance", allowance_budget);
      ("savings", savings_budget) ].

(** The variance loop over the five budgeted categories. *)
Definition variance_table (actuals : gmap string Q) : list report_row :=
  (fun cat => variance_row cat (default 0%Q (budgets !! cat))
                               (default 0%Q (actuals !! cat)))
    <$> ["income"; "bill"; "giving"; "allowance"; "savings"].

Section Script.
Context `{Runtime}.

(** The loop that fills [transactions] from the tuples found. *)
Definition parse_one (d : list (string * parsed)) (m : found)
  : result (list (string * parsed)) :=
  amount ← float (VStr (g_amount m));
  mret (dict_set (g_id m)
          {| date := g_date m;
             label := strip_quotes (g_label m);
             amount := amount;
             type := strip_quotes (g_type m);
             category := strip_quotes (g_category m);
             notes := strip_quotes (g_notes m) |} d).

Definition parse_all (matches : list found) : result (list (string * parsed)) :=
  for_each parse_one [] matches.

Definition run (matches : list found) : result (list report_row) :=
  transactions ← parse_all matches;
  mret (variance_table (actuals_of transactions)).
End Script.
End CalcVariance.

(** ** verify_variance.py *)

Module VerifyVariance.

Definition budgets : gmap string Q :=
  list_to_map
    [ ("income", 4700);
      ("bill", 550 + 175 + 34 + 93 + 37 + 200 + 108 + 140 + 400 + 100 + 43);
      ("giving", 410 + 165 + 50 + 100);
      ("allowance", 560);
      ("savings", 1050);
      ("other", 500) ]%Q.

Definition actuals : gmap string Q :=
  list_to_map
    [ ("income", 531949 # 100);
      ("bill", 182955 # 100);
      ("giving", 90616 # 100);
      ("allowance", 105201 # 100);
      ("savings", 860);
      ("other", 45737 # 100) ]%Q.

(** [d[k]]. *)
Definition index (d : gmap string Q) (k : string) : result Q :=
  match d !! k with
  | Some v => Ok v
  | None => Raise KeyError
  end.

Definition variance_table : result (list report_row) :=
  mapM (fun category =>
          budgeted ← index budgets category;
          actual ← index actuals category;
          mret (variance_row category budgeted actual))
       ["income"; "bill"; "giving"; "allowance"; "savings"; "other"].
End VerifyVariance.

(** ** extract_correct.py: the report *)

Module ExtractCorrectReport.
Import ExtractCorrect.

(** [app_category_totals.get(c, {'amount': 0})['amount']]. *)
Definition amount_of (m : gmap string tally) (c : string) : Q :=
  match m !! c with
  | Some t => total t
  | None => 0%Q
  end.


Definition total_outflow (m : gmap string tally) : Q :=
  (amount_of m "bill" + amount_of m "giving" + amount_of m "allowance"
   + amount_of m "savings" + amount_of m "other")%Q.

(** [app_category_totals['income']['amount']]: an absent entry of the
    [defaultdict] reads as amount 0. *)
Definition income (m : gmap string tally) : Q := amount_of m "income".

Definition net (m : gmap string tally) : Q := (income m - total_outflow m)%Q.
End ExtractCorrectReport.

(** ** gen_final_transactions.py: the summary *)

Module GenFinalSummary.






End GenFinalSummary.

(** ** gen_ts_transactions.py

    The script reads [period1_transactions_final.json], the file that
    [gen_final_transactions] and [extract_correct] write, and prints one
    TypeScript line for each record.  A record read back from the file has
    the fields it was written with: text, numbers, booleans and [None]
    come back as they went in.  The f-string of the loop nests quotes of
    its own kind, which Python accepts from version 3.12 on; the model is
    of a run under such an interpreter. *)

Module GenTs.
Section Script.
Context `{Runtime}.

(** [txn.get(k)] for the key linkedRuleId: [None] when the key is absent. *)
Definition get_linkedRuleId (t : Txn.t) : value :=
  default VNone (Txn.linkedRuleId t).

Definition linked_rule (t : Txn.t) : string :=
  if truthy (get_linkedRuleId t)
  then "linkedRuleId: " +:+ quoted (str (get_linkedRuleId t))
  else "linkedRuleId: undefined".

(** The line printed for one record; [replace] needs label and notes to
    be text. *)
Definition line (t : Txn.t) : result string :=
  label ← GenFinal.replace_quotes (Txn.label t);
  notes ← GenFinal.replace_quotes (Txn.notes t);
  mret ("    { id: " +:+ quoted (Txn.id t)
        +:+ ", date: " +:+ quoted (Txn.date t)
        +:+ ", label: " +:+ quoted label
        +:+ ", amount: " +:+ str (Txn.amount t)
        +:+ ", type: " +:+ quoted (Txn.type t)
        +:+ ", category: " +:+ quoted (Txn.category t)
        +:+ ", notes: " +:+ quoted notes
        +:+ ", " +:+ linked_rule t +:+ " },").

(** The loop prints as it goes: the lines printed before the first
    exception stay printed. *)
Fixpoint print_lines (transactions : list Txn.t) : list string * result unit :=
  match transactions with
  | [] => ([], Ok tt)
  | txn :: rest =>
      match line txn with
      | Ok s => let '(out, r) := print_lines rest in (s :: out, r)
      | Raise e => ([], Raise e)
      end
  end.

(** Everything the script prints, and how it ends. *)
Definition run (transactions : list Txn.t) : list string * result unit :=
  let '(out, r) := print_lines transactions in
  match r with
  | Ok _ => ("transactions: [" :: out ++ ["  ],"], r)
  | Raise _ => ("transactions: [" :: out, r)
  end.
End Script.
End GenTs.

(** ** A runtime for the examples

    [float] here reads plain decimal text (blanks around it, a sign, digits,
    at most one point) and [str] prints a decimal expansion.  The theorems
    below hold for every runtime; this one only serves to run the scripts
    on concrete sheets. *)

Module Decimal.

Definition digit_of (c : ascii) : option Z :=
  let n := Z.of_N (N_of_ascii c) in
  if (48 <=? n)%Z && (n <=? 57)%Z then Some (n - 48)%Z else None.

(** Reads digits: the number read so far, how many digits, and the rest. *)
Fixpoint digits (s : string) (acc : Z) (k : nat) : Z * nat * string :=
  match s with
  | EmptyString => (acc, k, s)
  | String c s' =>
      match digit_of c with
      | Some d => digits s' (acc * 10 + d)%Z (S k)
      | None => (acc, k, s)
      end
  end.

Definition unsigned (s : string) : option Q :=
  let '(ip, ni, rest) := digits s 0%Z 0%nat in
  match rest with
  | EmptyString => if (ni =? 0)%nat then None else Some (inject_Z ip)
  | String c rest' =>
      if Ascii.eqb c "."%char then
        let '(fp, nf, rest'') := digits rest' 0%Z 0%nat in
        match rest'' with
        | EmptyString =>
            if (ni + nf =? 0)%nat then None
            else Some (Qred ((ip * 10 ^ Z.of_nat nf + fp) # Pos.of_nat (10 ^ nf)))
        | _ => None
        end
      else None
  end.

Definition parse (s : string) : option Q :=
  match strip s with
  | String c s' =>
      if Ascii.eqb c "-"%char then Qopp <$> unsigned s'
      else if Ascii.eqb c "+"%char then unsigned s'
      else unsigned (String c s')
  | EmptyString => None
  end.

(** Digits of [r / d] after the point, at most [fuel] of them. *)
Fixpoint fraction (fuel : nat) (r d : Z) : string :=
  match fuel with
  | O => ""
  | S fuel' =>
      if (r =? 0)%Z then ""
      else pretty (r * 10 / d)%Z +:+ fraction fuel' (r * 10 mod d)%Z d
  end.

Definition print (q : Q) : string :=
  let n := Z.abs (Qnum q) in
  let d := Z.pos (Qden q) in
  (if (Qnum q <? 0)%Z then "-" else "")
  +:+ pretty (n / d)%Z +:+ "."
  +:+ (if (n mod d =? 0)%Z then "0" else fraction 17 (n mod d)%Z d).

Definition runtime : Runtime :=
  {| float_of_str := parse; str_of_float := print |}.
End Decimal.

(** * The vocabulary of the statements *)

(** ** Lines of the variance table *)


(** ** Records *)


(** The amount is a number that is not negative. *)
Definition amount_nonneg (t : Txn.t) : Prop :=
  exists q, Txn.amount t = VFloat q /\ (0 <= q)%Q.


(** The identifiers are txn-1, txn-2, ... in the order of the list. *)
Definition sequential_ids (l : list Txn.t) : Prop :=
  Txn.id <$> l = (fun k => txn_label (N.of_nat k)) <$> seq 1 (length l).

Section RecordsWritten.
Context `{Runtime}.

(** The record that the body appends for row [r] in state [st]. *)
Definition extract_final_record (st : ExtractFinal.state) (r : row)
  (t : Txn.t) : Prop :=
  exists tp c a,
    ExtractFinal.map_to_type_and_category (cell r 1) (cell r 2) = Ok (tp, c) /\
    truthy (cell r 0) = true /\
    float (cell r 4) = Ok a /\
    t = {| Txn.id := txn_label (ExtractFinal.txn_id st);
           Txn.date :=
             match cell r 0 with
             | VDate d => strftime_ymd d
             | v => str v
             end;
           Txn.label :=
             VStr (if truthy (cell r 3) then str (cell r 3) else "");
           Txn.amount := VFloat a;
           Txn.type := tp;
           Txn.category := c;
           Txn.notes :=
             VStr (if truthy (cell r 7) && negb (startswith "=" (str (cell r 7)))
                   then strip (str (cell r 7)) else "");
           Txn.linkedRuleId := None |}.

Definition gen_final_record (st : GenFinal.state) (r : row)
  (t : Txn.t) : Prop :=
  exists d a,
    cell r 0 = VDate d /\
    truthy (cell r 2) = true /\
    float (cell r 4) = Ok a /\
    let cls := GenFinal.classify a (cell r 1) (strip (str (cell r 2))) in
    t = {| Txn.id := txn_label (GenFinal.txn_id st + 1);
           Txn.date := strftime_ymd d;
           Txn.label := cell r 3;
           Txn.amount := VFloat cls.1.2;
           Txn.type := cls.1.1;
           Txn.category := cls.2;
           Txn.notes := VStr (strip (str (cell r 2)));
           Txn.linkedRuleId := None |}.

(** Type and category as the [if / elif / else] of the loop assigns
    them. *)
Definition correct_class (txn_type : value) (category_str : string)
  : string * string :=
  if eq_str txn_type "Income" then ("income", "income")
  else if eq_str txn_type "Transfer" then ("transfer", "savings")
  else ("outflow", default "other" (ExtractCorrect.category_to_app !! category_str)).

Definition extract_correct_record (st : ExtractCorrect.state) (r : row)
  (t : Txn.t) : Prop :=
  exists d a,
    cell r 0 = VDate d /\
    eq_num (cell r 8) 1 = true /\
    truthy (cell r 4) = true /\
    float (cell r 4) = Ok a /\
    let category_str := if truthy (cell r 2) then str (cell r 2) else "" in
    let cls := correct_class (cell r 1) category_str in
    t = {| Txn.id :=
             txn_label (N.of_nat (length (ExtractCorrect.transactions st)) + 1);
           Txn.date := strftime_ymd d;
           Txn.label :=
             VStr (str (or_else (cell r 3) (or_else (cell r 2) (VStr ""))));
           Txn.amount := VFloat (Qabs a);
           Txn.type := cls.1;
           Txn.category := cls.2;
           Txn.notes := VStr category_str;
           Txn.linkedRuleId :=
             Some (if String.eqb cls.2 "savings" then VStr "savings" else VNone)
        |}.

Definition period1_class (type_val category_val : value) : string * string :=
  let app_type := ExtractPeriod1.get_cell ExtractPeriod1.type_map type_val "outflow" in
  (app_type,
   if String.eqb app_type "income" then "income"
   else if String.eqb app_type "transfer" then "savings"
   else ExtractPeriod1.get_cell ExtractPeriod1.category_map category_val "other").

Definition extract_period1_record (st : ExtractPeriod1.state) (r : row)
  (t : Txn.t) : Prop :=
  eq_num (cell r 8) 1 = true /\
  truthy (cell r 0) = true /\
  is_none (cell r 4) = false /\
  let cls := period1_class (cell r 1) (cell r 2) in
  t = {| Txn.id := txn_label (ExtractPeriod1.txn_id st);
         Txn.date :=
           match cell r 0 with
           | VDate d => strftime_ymd d
           | v => take_str 10 (str v)
           end;
         Txn.label :=
           if truthy (cell r 3) then cell r 3 else VStr "Transaction";
         Txn.amount := cell r 4;
         Txn.type := cls.1;
         Txn.category := cls.2;
         Txn.notes := if truthy (cell r 7) then cell r 7 else VStr "";
         Txn.linkedRuleId :=
           if String.eqb cls.1 "transfer" && String.eqb cls.2 "savings"
           then Some (VStr "savings") else None |}.

(** The records in the JSON file a run leaves; none when the run raises
    before the file is complete. *)
Definition extract_final_records (sh : sheet) : list Txn.t :=
  match ExtractFinal.extract sh with Ok l => l | Raise _ => [] end.

Definition gen_final_records (sh : sheet) : list Txn.t :=
  match GenFinal.extract sh with Ok out => GenFinal.json out | Raise _ => [] end.

Definition extract_correct_records (sh : sheet) : list Txn.t :=
  match ExtractCorrect.extract sh with
  | Ok out => ExtractCorrect.json out
  | Raise _ => []
  end.

Definition extract_period1_records (sh : sheet) : list Txn.t :=
  match ExtractPeriod1.extract sh with
  | Ok out => ExtractPeriod1.json out
  | Raise _ => []
  end.

End RecordsWritten.

(** ** Substring patterns *)

(** The rule as the spec words it: an ordered list of entries, each with
    the substrings it looks for and the result it gives; the first entry
    with a substring that occurs decides, and a default stands for no
    match. *)
Fixpoint first_match {R : Type} (rules : list (list string * R)) (s : string)
  (dflt : R) : R :=
  match rules with
  | [] => dflt
  | (pats, res) :: rest =>
      if existsb (fun p => contains p s) pats then res
      else first_match rest s dflt
  end.

(** The entries [map_to_type_and_category] tries for an expense, in its
    order. *)
Definition expense_patterns : list (list string * (string * string)) :=
  [ (["tithe"; "giving"], ("outflow", "giving"));
    (["bill"; "electricity"; "gas"; "water"; "internet"; "phone"],
     ("outflow", "bill"));
    (["saving"; "investment"], ("transfer", "savings"));
    (["allowance"; "house keep"], ("outflow", "allowance")) ].

(** A type or category cell that holds text, or nothing. *)
Definition text_cell (o : option string) : value :=
  match o with
  | Some s => VStr s
  | None => VNone
  end.

(** No pattern of [expense_patterns] occurs in the text. *)
Definition no_pattern_occurs (s : string) : bool :=
  forallb (fun rule => negb (existsb (fun p => contains p s) rule.1))
          expense_patterns.

(** ** Actual totals *)

(** The records whose amount goes to the total of category [c]: an income
    record goes to income whatever its category, a transfer goes nowhere,
    and any other record (an outflow) goes to its own category. *)
Definition counts_toward (c : string) (t : CalcVariance.parsed) : bool :=
  if String.eqb (CalcVariance.type t) "income" then String.eqb c "income"
  else if String.eqb (CalcVariance.type t) "transfer" then false
  else String.eqb (CalcVariance.category t) c.

(** [sum(t['amount'] for t in ... if ...)]. *)
Definition total_where (p : CalcVariance.parsed -> bool)
  (l : list CalcVariance.parsed) : Q :=
  foldl Qplus 0%Q (CalcVariance.amount <$> List.filter p l).

(** ** Runs as relations

    The two pipelines once more, as relations between a sheet and what a
    run of the script leaves, one rule for each path through the loop
    body.  A run consults the sheet and nothing else: there is no rule
    that reads a clock or draws a random number, because the scripts have
    no such statement. *)

(** The loop over the rows for a body given as a relation. *)
Inductive loops {S A : Type} (step : S -> A -> result S -> Prop)
  : S -> list A -> result S -> Prop :=
| loops_done s :
    loops step s [] (Ok s)
| loops_next s a l s' o :
    step s a (Ok s') -> loops step s' l o -> loops step s (a :: l) o
| loops_raise s a l e :
    step s a (Raise e) -> loops step s (a :: l) (Raise e).

Module GenFinalRun.
Import GenFinal.
Section Rules.
Context `{Runtime}.

Definition record (st : state) (r : row) (d : datetime)
  (txn_type : string) (amount : Q) (category : string) : Txn.t :=
  {| Txn.id := txn_label (txn_id st + 1);
     Txn.date := strftime_ymd d;
     Txn.label := cell r 3;
     Txn.amount := VFloat amount;
     Txn.type := txn_type;
     Txn.category := category;
     Txn.notes := VStr (strip (str (cell r 2)));
     Txn.linkedRuleId := None |}.

Definition push (st : state) (t : Txn.t) (amount : Q) : state :=
  mkstate (transactions st ++ [t]) (txn_id st + 1)
          (add_total (Txn.category t) amount (category_totals st)).

(** A row that reaches the amount test: date, column C and amount are
    not empty, the date is a datetime of the period, the amount is not 0. *)
Definition admitted (r : row) (d : datetime) : Prop :=
  truthy (cell r 0) = true /\ truthy (cell r 2) = true /\
  truthy (cell r 4) = true /\ cell r 0 = VDate d /\
  datetime_leb period1_start d = true /\ datetime_leb d period1_end = true /\
  eq_num (cell r 4) 0 = false.

Inductive step : state -> row -> result state -> Prop :=
| skip_empty st r :
    truthy (cell r 0) = false \/ truthy (cell r 2) = false
    \/ truthy (cell r 4) = false ->
    step st r (Ok st)
| skip_not_datetime st r :
    truthy (cell r 0) = true -> truthy (cell r 2) = true ->
    truthy (cell r 4) = true -> is_datetime (cell r 0) = false ->
    step st r (Ok st)
| skip_out_of_period st r d :
    truthy (cell r 2) = true -> truthy (cell r 4) = true ->
    cell r 0 = VDate d ->
    datetime_leb period1_start d = false \/ datetime_leb d period1_end = false ->
    step st r (Ok st)
| skip_zero st r d :
    truthy (cell r 2) = true -> truthy (cell r 4) = true ->
    cell r 0 = VDate d ->
    datetime_leb period1_start d = true -> datetime_leb d period1_end = true ->
    eq_num (cell r 4) 0 = true ->
    step st r (Ok st)
| skip_unreadable st r d e :
    admitted r d -> float (cell r 4) = Raise e ->
    step st r (Ok st)
| emit_income st r d a :
    admitted r d -> float (cell r 4) = Ok a -> (0 < a)%Q ->
    step st r (Ok (push st (record st r d "income" a "income") a))
| emit_transfer st r d a :
    admitted r d -> float (cell r 4) = Ok a -> (a <= 0)%Q ->
    truthy (cell r 1) = true -> contains "Transfer" (str (cell r 1)) = true ->
    step st r
      (Ok (push st
             (record st r d "transfer" (Qabs a)
                (default "savings" (CATEGORY_MAPPING !! strip (str (cell r 2)))))
             (Qabs a)))
| emit_outflow st r d a :
    admitted r d -> float (cell r 4) = Ok a -> (a <= 0)%Q ->
    truthy (cell r 1) = false \/ contains "Transfer" (str (cell r 1)) = false ->
    step st r
      (Ok (push st
             (record st r d "outflow" (Qabs a)
                (default "bill" (CATEGORY_MAPPING !! strip (str (cell r 2)))))
             (Qabs a))).

(** A run: the loop over rows 2 to the last, then the JSON file, then the
    TypeScript lines. *)
Inductive run : sheet -> result output -> Prop :=
| run_written sh st js :
    loops step init (tail sh) (Ok st) ->
    json_dump (transactions st) = Ok js ->
    run sh (Ok (mkoutput js (mapM ts_line js)))
| run_not_serializable sh st e :
    loops step init (tail sh) (Ok st) ->
    json_dump (transactions st) = Raise e ->
    run sh (Raise e)
| run_loop_raises sh e :
    loops step init (tail sh) (Raise e) ->
    run sh (Raise e).
End Rules.
End GenFinalRun.

Module ExtractCorrectRun.
Import ExtractCorrect.
Section Rules.
Context `{Runtime}.

Definition category_str (r : row) : string :=
  if truthy (cell r 2) then str (cell r 2) else "".

Definition record (st : state) (r : row) (d : datetime) (a : Q)
  (final_type app_cat : string) : Txn.t :=
  {| Txn.id := txn_label (N.of_nat (length (transactions st)) + 1);
     Txn.date := strftime_ymd d;
     Txn.label := VStr (str (or_else (cell r 3) (or_else (cell r 2) (VStr ""))));
     Txn.amount := VFloat (Qabs a);
     Txn.type := final_type;
     Txn.category := app_cat;
     Txn.notes := VStr (category_str r);
     Txn.linkedRuleId :=
       Some (if String.eqb app_cat "savings" then VStr "savings" else VNone) |}.

Definition push (st : state) (t : Txn.t) (a : Q) (unmapped' : gmap string tally)
  : state :=
  mkstate (transactions st ++ [t])
          (bump (Txn.category t) (Qabs a) (app_category_totals st))
          unmapped'.

(** A row that reaches the type test: nine cells or more, period 1, date
    and amount not empty, the date a datetime. *)
Definition admitted (r : row) (d : datetime) : Prop :=
  (9 <= length r)%nat /\ eq_num (cell r 8) 1 = true /\
  truthy (cell r 0) = true /\ truthy (cell r 4) = true /\ cell r 0 = VDate d.

Inductive step : state -> row -> result state -> Prop :=
| raise_short st r :
    (length r < 9)%nat ->
    step st r (Raise IndexError)
| skip_guard st r :
    (9 <= length r)%nat ->
    eq_num (cell r 8) 1 = false \/ truthy (cell r 0) = false
    \/ truthy (cell r 4) = false ->
    step st r (Ok st)
| skip_not_datetime st r :
    (9 <= length r)%nat -> eq_num (cell r 8) 1 = true ->
    truthy (cell r 0) = true -> truthy (cell r 4) = true ->
    is_datetime (cell r 0) = false ->
    step st r (Ok st)
| emit_income st r d a :
    admitted r d -> eq_str (cell r 1) "Income" = true ->
    float (cell r 4) = Ok a ->
    step st r (Ok (push st (record st r d a "income" "income") a (unmapped st)))
| emit_transfer st r d a :
    admitted r d -> eq_str (cell r 1) "Income" = false ->
    eq_str (cell r 1) "Transfer" = true ->
    float (cell r 4) = Ok a ->
    step st r (Ok (push st (record st r d a "transfer" "savings") a (unmapped st)))
| emit_mapped st r d a c :
    admitted r d -> eq_str (cell r 1) "Income" = false ->
    eq_str (cell r 1) "Transfer" = false ->
    category_to_app !! category_str r = Some c ->
    float (cell r 4) = Ok a ->
    step st r (Ok (push st (record st r d a "outflow" c) a (unmapped st)))
| emit_unmapped st r d a :
    admitted r d -> eq_str (cell r 1) "Income" = false ->
    eq_str (cell r 1) "Transfer" = false ->
    category_to_app !! category_str r = None ->
    float (cell r 4) = Ok a ->
    step st r (Ok (push st (record st r d a "outflow" "other") a
                        (bump (category_str r) (Qabs a) (unmapped st))))
| raise_unreadable st r d e :
    admitted r d -> float (cell r 4) = Raise e ->
    step st r (Raise e).

(** A run: the loop over rows 2 to 1200, then the sort by date. *)
Inductive run : sheet -> result output -> Prop :=
| run_written sh st :
    loops step init (rows_2_to_1200 sh) (Ok st) ->
    run sh (Ok (mkoutput (sort_desc (transactions st))
                         (app_category_totals st) (unmapped st)))
| run_loop_raises sh e :
    loops step init (rows_2_to_1200 sh) (Raise e) ->
    run sh (Raise e).
End Rules.
End ExtractCorrectRun.

(** ** Sums over records *)

(** A number cell as a rational; anything else counts 0. *)
Definition number_of (v : value) : Q :=
  match v with
  | VInt z => inject_Z z
  | VFloat q => q
  | VBool b => if b then 1 else 0
  | _ => 0
  end%Q.


Definition Qsum (l : list Q) : Q := foldr Qplus 0%Q l.

(** The sum of the amounts of the records that satisfy [p], and how many
    they are. *)
Definition amount_where (p : Txn.t -> bool) (l : list Txn.t) : Q :=
  Qsum ((fun t => number_of (Txn.amount t)) <$> List.filter p l).

Definition count_where (p : Txn.t -> bool) (l : list Txn.t) : nat :=
  length (List.filter p l).

Definition has_category (c : string) (t : Txn.t) : bool :=
  String.eqb (Txn.category t) c.




(** An entry of [category_totals] against the records: the entry is
    there exactly when some record satisfies [p], and then holds the sum
    of their amounts. *)
Definition total_matches (p : Txn.t -> bool) (l : list Txn.t)
  (o : option Q) : Prop :=
  match o with
  | Some q => (q == amount_where p l)%Q /\ (0 < count_where p l)%nat
  | None => count_where p l = 0%nat
  end.

(** The day of a datetime lies in the period of [gen_final_transactions],
    22 December 2025 to 25 January 2026. *)
Definition in_period1 (d : datetime) : Prop :=
  datetime_leb GenFinal.period1_start d = true /\
  datetime_leb d GenFinal.period1_end = true.


Definition is_text (v : value) : bool :=
  match v with
  | VStr _ => true
  | _ => false
  end.

(** ** Printed lines *)

(** The text [s] ends with [suffix]. *)
Definition ends_with (suffix s : string) : Prop :=
  exists before, s = before +:+ suffix.

(** The end of a TypeScript line whose record is linked to [rule], and of
    one whose record is linked to nothing. *)
Definition linked_to (rule : string) : string :=
  ", linkedRuleId: " +:+ quoted rule +:+ " },".

Definition not_linked : string := ", linkedRuleId: undefined },".

(** ** Cells *)

(** A cell that holds text, or something that counts as empty. *)
Definition text_or_empty (v : value) : bool := is_text v || negb (truthy v).

(** A row with no cell that counts as filled. *)
Definition blank (r : row) : bool := negb (existsb truthy r).

(** ** Parsed records *)



(** ** Sheets for the concrete runs *)

Definition header : row :=
  [ VStr "Date"; VStr "Type"; VStr "Category"; VStr "Description";
    VStr "Amount"; VNone; VNone; VStr "Notes"; VStr "Period" ].

(** A row of period 1 dated in January 2026, with cells A to E filled. *)
Definition january (d : N) (ty cat desc : string) (amount : value) : row :=
  [ VDate (mkdatetime 2026 1 d 0 0 0 0); VStr ty; VStr cat; VStr desc; amount;
    VNone; VNone; VNone; VInt 1 ].

Definition tithe_sheet : sheet :=
  [ header; january 5 "Expense" "Tithe" "Monthly tithe" (VInt (-410)) ].

Definition energy_sheet : sheet :=
  [ header; january 6 "Expense" "Electricity & Gas" "Energy" (VFloat (-12050 # 100)) ].

Definition transfer_sheet : sheet :=
  [ header; january 7 "Transfer" "Savings Transfer" "To savings" (VInt (-200)) ].

Definition mystery_row : row :=
  january 8 "Expense" "Mystery" "Unknown shop" (VInt (-20)).

Definition mystery_sheet : sheet := [ header; mystery_row ].

Definition mystery_transfer_sheet : sheet :=
  [ header; january 8 "Transfer" "Mystery" "Moved" (VInt (-50)) ].

Definition unreadable_row : row :=
  january 9 "Expense" "Tithe" "Monthly tithe" (VStr "abc").

Definition unreadable_sheet : sheet := [ header; unreadable_row ].

Definition salary_row : row :=
  january 10 "Expense" "Income - FM" "Salary" (VInt 2000).

(** One tuple as [re.findall] gives it for a transfer of 100 to savings. *)
Definition found_transfer : CalcVariance.found :=
  {| CalcVariance.g_id := quoted "txn-1";
     CalcVariance.g_date := quoted "2026-01-07";
     CalcVariance.g_label := quoted "To savings";
     CalcVariance.g_amount := "100.0";
     CalcVariance.g_type := quoted "transfer";
     CalcVariance.g_category := quoted "savings";
     CalcVariance.g_notes := quoted "Savings Transfer";
     CalcVariance.g_linked := ", linkedRuleId: " |}.

(** An expense, a transfer, an expense of a category that is in no table,
    and an income. *)
Definition mixed_sheet : sheet :=
  [ header;
    january 5 "Expense" "Tithe" "Monthly tithe" (VInt (-410));
    january 7 "Transfer" "Savings Transfer" "To savings" (VInt (-200));
    january 8 "Expense" "Mystery" "Unknown shop" (VInt (-20));
    january 10 "Income" "Income - FM" "Salary" (VInt 2000) ].

(** A sheet of two columns. *)
Definition narrow_sheet : sheet :=
  [ [VStr "Date"; VStr "Type"];
    [VDate (mkdatetime 2026 1 5 0 0 0 0); VStr "Expense"] ].

(** A sheet of 1201 rows: the header, 1199 rows and one more row below
    sheet row 1200. *)
Definition long_sheet : sheet :=
  header :: replicate 1199 mystery_row ++ [salary_row].

(** ** Tactics *)

(** Case analysis on the outcome of a computation in [result]. *)
Ltac run_result H :=
  repeat
    (match type of H with
     | context [mbind _ ?m] =>
         let E := fresh "E" in
         destruct m eqn:E; cbn [mbind result_bind mret result_ret] in H;
         try discriminate H
     | context [match ?m with Ok _ => _ | Raise _ => _ end] =>
         let E := fresh "E" in
         destruct m eqn:E; cbn [mbind result_bind mret result_ret] in H;
         try discriminate H
     | context [if ?b then _ else _] =>
         let E := fresh "E" in
         destruct b eqn:E; cbn [mbind result_bind mret result_ret] in H;
         try discriminate H
     end).

(** Membership in a list given by its elements. *)
Ltac solve_elem :=
  solve [ repeat first [ apply list_elem_of_here | apply list_elem_of_further ] ].

(** Every case of a membership hypothesis in a list given by its elements. *)
Ltac split_elem H :=
  repeat
    (match type of H with
     | _ ∈ [] => apply not_elem_of_nil in H; destruct H
     | _ ∈ _ :: _ => apply elem_of_cons in H; destruct H as [H|H]
     end).

(** * Properties *)

(** ** Shared lemmas *)

Lemma Qlt_bool_iff (a b : Q) : Qlt_bool a b = true <-> (a < b)%Q.
Proof.
  unfold Qlt_bool. rewrite negb_true_iff.
  destruct (Qle_bool b a) eqn:E.
  - apply Qle_bool_iff in E. split; [discriminate | intros; lra].
  - split; [intros _ | reflexivity].
    apply Qnot_le_lt. intros Hle. apply Qle_bool_iff in Hle. congruence.
Qed.

Lemma Qlt_bool_false (a b : Q) : Qlt_bool a b = false <-> (b <= a)%Q.
Proof.
  unfold Qlt_bool. rewrite negb_false_iff. apply Qle_bool_iff.
Qed.

(** A property of the loop state that the body preserves holds when the
    loop ends. *)
Lemma for_each_invariant {S A : Type} (P : S -> Prop) (body : S -> A -> result S) :
  (forall s a s', P s -> body s a = Ok s' -> P s') ->
  forall l s s', P s -> for_each body s l = Ok s' -> P s'.
Proof.
  intros Hstep l. induction l as [|a l IH]; intros s s' Hs Hrun; simpl in Hrun.
  - congruence.
  - destruct (body s a) as [s1|e] eqn:E; simpl in Hrun; [|discriminate].
    eapply IH; [|exact Hrun]. eauto.
Qed.

(** A row on which the body changes nothing is passed over by the loop. *)
Lemma for_each_skip {S A : Type} (body : S -> A -> result S) s a l :
  body s a = Ok s -> for_each body s (a :: l) = for_each body s l.
Proof. intros E. simpl. rewrite E. reflexivity. Qed.

Lemma lookup_table_elem (tbl : list (string * string)) (k v : string) :
  (list_to_map tbl : gmap string string) !! k = Some v -> (k, v) ∈ tbl.
Proof. apply elem_of_list_to_map_2. Qed.

Lemma json_dump_ok l l' : json_dump l = Ok l' -> l' = l.
Proof. unfold json_dump. case_match; congruence. Qed.

Lemma insert_desc_perm t l : ExtractCorrect.insert_desc t l ≡ₚ t :: l.
Proof.
  induction l as [|u l IH]; simpl; [done|].
  case_match; [done|]. rewrite IH. apply Permutation_swap.
Qed.

Lemma sort_desc_perm l : ExtractCorrect.sort_desc l ≡ₚ l.
Proof.
  induction l as [|t l IH]; simpl; [done|].
  rewrite insert_desc_perm. by rewrite IH.
Qed.

(** ** The variance table *)




(** ** What one pass of each loop body does *)

Section Bodies.
Context `{Runtime}.

Lemma map_to_type_and_category_range ty cat tp c :
  ExtractFinal.map_to_type_and_category ty cat = Ok (tp, c) ->
  (tp, c) ∈ [ ("income", "income"); ("outflow", "giving"); ("outflow", "bill");
              ("transfer", "savings"); ("outflow", "allowance");
              ("outflow", "other") ].
Proof.
  unfold ExtractFinal.map_to_type_and_category. intros Hm.
  run_result Hm; injection Hm as <- <-; solve_elem.
Qed.

Lemma row_get_cell r k v : row_get r k = Ok v -> cell r k = v.
Proof.
  unfold row_get, cell. destruct (r !! k); simpl; congruence.
Qed.

Lemma extract_final_body_cases st r st' :
  ExtractFinal.body st r = Ok st' ->
  st' = st \/
  exists t,
    st' = ExtractFinal.mkstate (ExtractFinal.transactions st ++ [t])
                               (ExtractFinal.txn_id st + 1) /\
    extract_final_record st r t.
Proof.
  unfold ExtractFinal.body. intros Hb.
  destruct (negb (existsb truthy r)); [injection Hb as <-; by left|].
  destruct (row_get r 0) as [date_val|] eqn:E0; [|discriminate].
  destruct (row_get r 1) as [type_val|] eqn:E1; [|discriminate].
  destruct (row_get r 2) as [category_val|] eqn:E2; [|discriminate].
  destruct (row_get r 3) as [description|] eqn:E3; [|discriminate].
  destruct (row_get r 4) as [amount|] eqn:E4; [|discriminate].
  destruct (row_get r 7) as [r7|] eqn:E7; [|discriminate].
  cbn [mbind result_bind] in Hb.
  apply row_get_cell in E0, E1, E2, E3, E4, E7. subst.
  destruct (negb (truthy (cell r 0)) || is_none (cell r 4)) eqn:Eg;
    [injection Hb as <-; by left|].
  apply orb_false_elim in Eg as [Eg _]. apply negb_false_iff in Eg.
  destruct (ExtractFinal.map_to_type_and_category _ _) as [[tp c]|] eqn:Em;
    [|discriminate].
  cbn [mbind result_bind] in Hb.
  destruct (float (cell r 4)) as [a|] eqn:Ef;
    [|injection Hb as <-; by left].
  injection Hb as <-. right. eexists. split; [reflexivity|].
  exists tp, c, a. repeat (split; [done|]).
  f_equal.
  - by destruct (cell r 0).
  - destruct (truthy (cell r 7) && negb (startswith "=" (str (cell r 7))))
      eqn:E7; [|reflexivity].
    apply andb_prop in E7 as [-> _]. reflexivity.
Qed.

Lemma gen_final_body_cases st r st' :
  GenFinal.body st r = Ok st' ->
  st' = st \/
  exists t,
    GenFinal.transactions st' = (GenFinal.transactions st ++ [t])%list /\
    gen_final_record st r t.
Proof.
  unfold GenFinal.body. intros Hb.
  destruct (negb (forallb truthy [cell r 0; cell r 2; cell r 4])) eqn:Eall;
    [injection Hb as <-; by left|].
  apply negb_false_iff in Eall. simpl in Eall.
  apply andb_prop in Eall as [_ Eall]. apply andb_prop in Eall as [Ec _].
  destruct (cell r 0) as [| | | | |d] eqn:Ed;
    try (injection Hb as <-; by left).
  run_result Hb; try (injection Hb as <-; by left).
  destruct (GenFinal.classify _ _ _) as [[tp amt] c] eqn:Ecls.
  injection Hb as <-. right. eexists. split; [reflexivity|].
  exists d, a. repeat (split; [done|]).
  simpl. rewrite Ecls. reflexivity.
Qed.


Lemma classify_amount_nonneg a ty s :
  (0 <= (GenFinal.classify a ty s).1.2)%Q.
Proof.
  unfold GenFinal.classify.
  destruct (Qlt_bool 0 a) eqn:E.
  - apply Qlt_bool_iff in E. simpl. lra.
  - destruct (truthy ty && contains "Transfer" (str ty)); simpl;
      apply Qabs_nonneg.
Qed.

Lemma extract_correct_body_cases st r st' :
  ExtractCorrect.body st r = Ok st' ->
  st' = st \/
  exists t,
    ExtractCorrect.transactions st'
      = (ExtractCorrect.transactions st ++ [t])%list /\
    extract_correct_record st r t.
Proof.
  unfold ExtractCorrect.body. intros Hb.
  destruct (row_get r 0) as [date|] eqn:E0; [|discriminate].
  destruct (row_get r 1) as [txn_type|] eqn:E1; [|discriminate].
  destruct (row_get r 2) as [category|] eqn:E2; [|discriminate].
  destruct (row_get r 3) as [description|] eqn:E3; [|discriminate].
  destruct (row_get r 4) as [amount|] eqn:E4; [|discriminate].
  destruct (row_get r 8) as [period|] eqn:E8; [|discriminate].
  cbn [mbind result_bind] in Hb.
  apply row_get_cell in E0, E1, E2, E3, E4, E8. subst.
  destruct (negb (eq_num (cell r 8) 1) || negb (truthy (cell r 0))
            || negb (truthy (cell r 4))) eqn:Eg;
    [injection Hb as <-; by left|].
  apply orb_false_elim in Eg as [Eg Ea].
  apply orb_false_elim in Eg as [Ep _].
  apply negb_false_iff in Ea, Ep.
  destruct (cell r 0) as [| | | | |d] eqn:Ed;
    try (injection Hb as <-; by left).
  right. unfold extract_correct_record, correct_class.
  destruct (float (cell r 4)) as [a|e] eqn:Ef.
  - eexists. split; [|exists d, a; repeat (split; [done|]); reflexivity].
    destruct (eq_str (cell r 1) "Income");
      [|destruct (eq_str (cell r 1) "Transfer");
        [|destruct (ExtractCorrect.category_to_app !! _)]];
      cbn in Hb; injection Hb as <-; reflexivity.
  - exfalso.
    destruct (eq_str (cell r 1) "Income");
      [|destruct (eq_str (cell r 1) "Transfer");
        [|destruct (ExtractCorrect.category_to_app !! _)]];
      cbn in Hb; discriminate.
Qed.

Lemma correct_class_range ty s :
  correct_class ty s ∈
    [ ("income", "income"); ("transfer", "savings"); ("outflow", "bill");
      ("outflow", "giving"); ("outflow", "allowance"); ("outflow", "other");
      ("outflow", "savings") ].
Proof.
  unfold correct_class.
  destruct (eq_str ty "Income"); [solve_elem|].
  destruct (eq_str ty "Transfer"); [solve_elem|].
  destruct (ExtractCorrect.category_to_app !! s) as [c|] eqn:E; simpl;
    [apply lookup_table_elem in E; split_elem E; simplify_eq|];
    solve_elem.
Qed.

Lemma extract_period1_body_cases st r st' :
  ExtractPeriod1.body st r = Ok st' ->
  st' = st \/
  exists t,
    ExtractPeriod1.transactions st'
      = (ExtractPeriod1.transactions st ++ [t])%list /\
    extract_period1_record st r t.
Proof.
  unfold ExtractPeriod1.body. intros Hb.
  destruct (negb (eq_num (cell r 8) 1)) eqn:Ep;
    [injection Hb as <-; by left|].
  apply negb_false_iff in Ep.
  destruct (negb (truthy (cell r 0)) || is_none (cell r 4)) eqn:Eg;
    [injection Hb as <-; by left|].
  apply orb_false_elim in Eg as [Eg En]. apply negb_false_iff in Eg.
  injection Hb as <-. right. eexists. split; [reflexivity|].
  repeat (split; [done|]). simpl. f_equal.
  by destruct (cell r 0).
Qed.

Lemma period1_class_range ty cat :
  period1_class ty cat ∈
    [ ("income", "income"); ("transfer", "savings"); ("outflow", "income");
      ("outflow", "bill"); ("outflow", "giving"); ("outflow", "allowance");
      ("outflow", "savings"); ("outflow", "other") ].
Proof.
  unfold period1_class.
  set (c := ExtractPeriod1.get_cell ExtractPeriod1.category_map cat "other").
  assert (Hc : c ∈ ["income"; "bill"; "giving"; "allowance"; "savings"; "other"]).
  { subst c. unfold ExtractPeriod1.get_cell.
    destruct cat as [|s| | | |]; try solve_elem.
    destruct (ExtractPeriod1.category_map !! s) as [c|] eqn:E; cbn [default];
      [apply lookup_table_elem in E; split_elem E; simplify_eq|];
      solve_elem. }
  clearbody c.
  assert (Ho : ("outflow", c)
               ∈ [ ("income", "income"); ("transfer", "savings");
                   ("outflow", "income"); ("outflow", "bill");
                   ("outflow", "giving"); ("outflow", "allowance");
                   ("outflow", "savings"); ("outflow", "other") ]).
  { split_elem Hc; rewrite Hc; solve_elem. }
  destruct ty as [|s| | | |]; simpl; try exact Ho.
  destruct (ExtractPeriod1.type_map !! s) as [ty|] eqn:E; simpl;
    [|exact Ho].
  apply lookup_table_elem in E. split_elem E; simplify_eq; simpl;
    first [exact Ho | solve_elem].
Qed.

End Bodies.

(** ** The records a run writes *)

Section Records.
Context `{Runtime}.
Variable P : Txn.t -> Prop.

Lemma extract_final_records_forall :
  (forall st r t, extract_final_record st r t -> P t) ->
  forall sh, Forall P (extract_final_records sh).
Proof.
  intros HP sh. unfold extract_final_records, ExtractFinal.extract.
  destruct (for_each _ _ _) as [st|] eqn:E; simpl; [|constructor].
  revert E. apply (for_each_invariant
    (fun st => Forall P (ExtractFinal.transactions st))); [|constructor].
  intros s r s' Hs Hb.
  apply extract_final_body_cases in Hb as [->|(t & -> & Ht)]; [done|].
  simpl. apply Forall_app. split; [done|]. constructor; eauto.
Qed.

Lemma gen_final_records_forall :
  (forall st r t, gen_final_record st r t -> P t) ->
  forall sh, Forall P (gen_final_records sh).
Proof.
  intros HP sh. unfold gen_final_records, GenFinal.extract.
  destruct (for_each _ _ _) as [st|] eqn:E; simpl; [|constructor].
  destruct (json_dump _) as [js|] eqn:Ej; simpl; [|constructor].
  apply json_dump_ok in Ej as ->.
  revert E. apply (for_each_invariant
    (fun st => Forall P (GenFinal.transactions st))); [|constructor].
  intros s r s' Hs Hb.
  apply gen_final_body_cases in Hb as [->|(t & -> & Ht)]; [done|].
  apply Forall_app. split; [done|]. constructor; eauto.
Qed.

Lemma extract_correct_records_forall :
  (forall st r t, extract_correct_record st r t -> P t) ->
  forall sh, Forall P (extract_correct_records sh).
Proof.
  intros HP sh. unfold extract_correct_records, ExtractCorrect.extract.
  destruct (for_each _ _ _) as [st|] eqn:E; simpl; [|constructor].
  rewrite sort_desc_perm.
  revert E. apply (for_each_invariant
    (fun st => Forall P (ExtractCorrect.transactions st))); [|constructor].
  intros s r s' Hs Hb.
  apply extract_correct_body_cases in Hb as [->|(t & -> & Ht)]; [done|].
  apply Forall_app. split; [done|]. constructor; eauto.
Qed.

Lemma extract_period1_records_forall :
  (forall st r t, extract_period1_record st r t -> P t) ->
  forall sh, Forall P (extract_period1_records sh).
Proof.
  intros HP sh. unfold extract_period1_records, ExtractPeriod1.extract.
  destruct (for_each _ _ _) as [st|] eqn:E; simpl; [|constructor].
  destruct (ExtractPeriod1.sum_of_type "income" _); simpl; [|constructor].
  destruct (ExtractPeriod1.sum_of_type "outflow" _); simpl; [|constructor].
  destruct (ExtractPeriod1.sum_of_type "transfer" _); simpl; [|constructor].
  destruct (json_dump _) as [js|] eqn:Ej; simpl; [|constructor].
  apply json_dump_ok in Ej as ->.
  revert E. apply (for_each_invariant
    (fun st => Forall P (ExtractPeriod1.transactions st))); [|constructor].
  intros s r s' Hs Hb.
  apply extract_period1_body_cases in Hb as [->|(t & -> & Ht)]; [done|].
  apply Forall_app. split; [done|]. constructor; eauto.
Qed.

End Records.

(** ** The category enumeration *)

Section Categories.
Context `{Runtime}.



End Categories.

(** ** Where the sign and the link are handled *)

Section SignAndLink.
Context `{Runtime}.

(** [extract_correct] and [gen_final_transactions] take the absolute value
    (or keep a positive amount): every record they write has an amount that
    is not negative. *)
Theorem amounts_nonneg_where_abs_is_taken (sh : sheet) :
  Forall amount_nonneg (extract_correct_records sh) /\
  Forall amount_nonneg (gen_final_records sh).
Proof.
  split.
  - apply extract_correct_records_forall.
    intros st r t (d & a & _ & _ & _ & _ & ->).
    exists (Qabs a). split; [reflexivity|apply Qabs_nonneg].
  - apply gen_final_records_forall.
    intros st r t (d & a & _ & _ & _ & ->).
    eexists. split; [reflexivity|apply classify_amount_nonneg].
Qed.


End SignAndLink.

(** ** Identifiers and order *)

Lemma txn_label_inj (m n : N) : txn_label m = txn_label n -> m = n.
Proof.
  unfold txn_label. intros Heq.
  apply (inj (String.append "txn-")) in Heq. by apply (inj pretty) in Heq.
Qed.

Lemma sequential_ids_nodup (l : list Txn.t) :
  sequential_ids l -> NoDup (Txn.id <$> l).
Proof.
  unfold sequential_ids. intros ->.
  apply NoDup_fmap_2.
  - intros j k Hjk. apply txn_label_inj in Hjk. lia.
  - apply NoDup_seq.
Qed.

Lemma sequential_ids_snoc (l : list Txn.t) (t : Txn.t) :
  sequential_ids l ->
  Txn.id t = txn_label (N.of_nat (length l) + 1) ->
  sequential_ids (l ++ [t]).
Proof.
  unfold sequential_ids. intros Hl Ht.
  rewrite fmap_app, length_app, Hl. simpl.
  rewrite Nat.add_1_r, seq_S, fmap_app. simpl.
  rewrite Ht. do 3 f_equal. lia.
Qed.

Section Identifiers.
Context `{Runtime}.

Lemma extract_final_loop_ids l st st' :
  for_each ExtractFinal.body st l = Ok st' ->
  ExtractFinal.txn_id st = (N.of_nat (length (ExtractFinal.transactions st)) + 1)%N ->
  sequential_ids (ExtractFinal.transactions st) ->
  sequential_ids (ExtractFinal.transactions st').
Proof.
  intros Hrun Hid Hseq.
  cut (ExtractFinal.txn_id st'
         = (N.of_nat (length (ExtractFinal.transactions st')) + 1)%N
       /\ sequential_ids (ExtractFinal.transactions st')); [tauto|].
  revert Hrun. apply (for_each_invariant
    (fun s => ExtractFinal.txn_id s
                = (N.of_nat (length (ExtractFinal.transactions s)) + 1)%N
              /\ sequential_ids (ExtractFinal.transactions s))); [|done].
  intros s r s' [Hc Hs] Hb.
  apply extract_final_body_cases in Hb
    as [->|(t & -> & tp & c & a & _ & _ & _ & ->)]; [done|].
  cbn [ExtractFinal.transactions ExtractFinal.txn_id]. split.
  - rewrite length_app. simpl. lia.
  - apply sequential_ids_snoc; [done|]. simpl. by rewrite Hc.
Qed.

Lemma gen_final_body_counter st r st' :
  GenFinal.body st r = Ok st' ->
  GenFinal.txn_id st = N.of_nat (length (GenFinal.transactions st)) ->
  GenFinal.txn_id st' = N.of_nat (length (GenFinal.transactions st')).
Proof.
  unfold GenFinal.body. intros Hb Hc.
  destruct (negb _); [by injection Hb as <-|].
  destruct (cell r 0); try by injection Hb as <-.
  destruct (negb _); [by injection Hb as <-|].
  destruct (eq_num _ _); [by injection Hb as <-|].
  destruct (float _); [|by injection Hb as <-].
  destruct (GenFinal.classify _ _ _) as [[tp amt] c].
  injection Hb as <-. simpl. rewrite length_app. simpl. lia.
Qed.

Lemma gen_final_loop_ids l st st' :
  for_each GenFinal.body st l = Ok st' ->
  GenFinal.txn_id st = N.of_nat (length (GenFinal.transactions st)) ->
  sequential_ids (GenFinal.transactions st) ->
  sequential_ids (GenFinal.transactions st').
Proof.
  intros Hrun Hid Hseq.
  cut (GenFinal.txn_id st' = N.of_nat (length (GenFinal.transactions st'))
       /\ sequential_ids (GenFinal.transactions st')); [tauto|].
  revert Hrun. apply (for_each_invariant
    (fun s => GenFinal.txn_id s = N.of_nat (length (GenFinal.transactions s))
              /\ sequential_ids (GenFinal.transactions s))); [|done].
  intros s r s' [Hc Hs] Hb.
  split; [by eapply gen_final_body_counter|].
  apply gen_final_body_cases in Hb
    as [->|(t & -> & d & a & _ & _ & _ & ->)]; [done|].
  apply sequential_ids_snoc; [done|]. simpl. by rewrite Hc.
Qed.

Lemma extract_correct_loop_ids l st st' :
  for_each ExtractCorrect.body st l = Ok st' ->
  sequential_ids (ExtractCorrect.transactions st) ->
  sequential_ids (ExtractCorrect.transactions st').
Proof.
  intros Hrun Hseq. revert Hrun. apply (for_each_invariant
    (fun s => sequential_ids (ExtractCorrect.transactions s))); [|done].
  intros s r s' Hs Hb.
  apply extract_correct_body_cases in Hb
    as [->|(t & -> & d & a & _ & _ & _ & _ & ->)]; [done|].
  by apply sequential_ids_snoc.
Qed.

Lemma extract_period1_body_counter st r st' :
  ExtractPeriod1.body st r = Ok st' ->
  ExtractPeriod1.txn_id st
    = (N.of_nat (length (ExtractPeriod1.transactions st)) + 1)%N ->
  ExtractPeriod1.txn_id st'
    = (N.of_nat (length (ExtractPeriod1.transactions st')) + 1)%N.
Proof.
  unfold ExtractPeriod1.body. intros Hb Hc.
  destruct (negb _); [by injection Hb as <-|].
  destruct (negb _ || _); [by injection Hb as <-|].
  injection Hb as <-. simpl. rewrite length_app. simpl. lia.
Qed.

Lemma extract_period1_loop_ids l st st' :
  for_each ExtractPeriod1.body st l = Ok st' ->
  ExtractPeriod1.txn_id st
    = (N.of_nat (length (ExtractPeriod1.transactions st)) + 1)%N ->
  sequential_ids (ExtractPeriod1.transactions st) ->
  sequential_ids (ExtractPeriod1.transactions st').
Proof.
  intros Hrun Hid Hseq.
  cut (ExtractPeriod1.txn_id st'
         = (N.of_nat (length (ExtractPeriod1.transactions st')) + 1)%N
       /\ sequential_ids (ExtractPeriod1.transactions st')); [tauto|].
  revert Hrun. apply (for_each_invariant
    (fun s => ExtractPeriod1.txn_id s
                = (N.of_nat (length (ExtractPeriod1.transactions s)) + 1)%N
              /\ sequential_ids (ExtractPeriod1.transactions s))); [|done].
  intros s r s' [Hc Hs] Hb.
  split; [by eapply extract_period1_body_counter|].
  apply extract_period1_body_cases in Hb
    as [->|(t & -> & _ & _ & _ & ->)]; [done|].
  apply sequential_ids_snoc; [done|]. simpl. by rewrite Hc.
Qed.

(** The identifiers of one run are txn-1, txn-2, ... in the order in which
    the records are appended, so no two records of a run share an
    identifier; [extract_correct] then sorts its records, which keeps the
    identifiers distinct. *)
Theorem identifiers_are_sequential_and_distinct (sh : sheet) :
  (sequential_ids (extract_final_records sh) /\
   sequential_ids (gen_final_records sh) /\
   sequential_ids (extract_period1_records sh)) /\
  NoDup (Txn.id <$> extract_final_records sh) /\
  NoDup (Txn.id <$> gen_final_records sh) /\
  NoDup (Txn.id <$> extract_period1_records sh) /\
  NoDup (Txn.id <$> extract_correct_records sh).
Proof.
  assert (Hnil : sequential_ids []) by reflexivity.
  assert (H1 : sequential_ids (extract_final_records sh)).
  { unfold extract_final_records, ExtractFinal.extract.
    destruct (for_each _ _ _) as [st|] eqn:E; simpl; [|done].
    by apply (extract_final_loop_ids _ _ _ E). }
  assert (H2 : sequential_ids (gen_final_records sh)).
  { unfold gen_final_records, GenFinal.extract.
    destruct (for_each _ _ _) as [st|] eqn:E; simpl; [|done].
    destruct (json_dump _) as [js|] eqn:Ej; simpl; [|done].
    apply json_dump_ok in Ej as ->.
    by apply (gen_final_loop_ids _ _ _ E). }
  assert (H3 : sequential_ids (extract_period1_records sh)).
  { unfold extract_period1_records, ExtractPeriod1.extract.
    destruct (for_each _ _ _) as [st|] eqn:E; simpl; [|done].
    destruct (ExtractPeriod1.sum_of_type "income" _); simpl; [|done].
    destruct (ExtractPeriod1.sum_of_type "outflow" _); simpl; [|done].
    destruct (ExtractPeriod1.sum_of_type "transfer" _); simpl; [|done].
    destruct (json_dump _) as [js|] eqn:Ej; simpl; [|done].
    apply json_dump_ok in Ej as ->.
    by apply (extract_period1_loop_ids _ _ _ E). }
  repeat split; try done; try by apply sequential_ids_nodup.
  unfold extract_correct_records, ExtractCorrect.extract.
  destruct (for_each _ _ _) as [st|] eqn:E; simpl; [|constructor].
  rewrite sort_desc_perm. apply sequential_ids_nodup.
  by apply (extract_correct_loop_ids _ _ _ E).
Qed.

Lemma insert_desc_sorted t l :
  Sorted (fun a b => ExtractCorrect.date_geb a b = true) l ->
  Sorted (fun a b => ExtractCorrect.date_geb a b = true)
         (ExtractCorrect.insert_desc t l).
Proof.
  induction l as [|u l IH]; intros Hl; simpl.
  - by repeat constructor.
  - destruct (ExtractCorrect.date_geb t u) eqn:E.
    + constructor; [exact Hl|]. by constructor.
    + apply Sorted_inv in Hl as [Hl Hhd]. constructor; [by apply IH|].
      assert (Hut : ExtractCorrect.date_geb u t = true).
      { unfold ExtractCorrect.date_geb in *.
        destruct (String.leb_total (Txn.date u) (Txn.date t)); congruence. }
      destruct l as [|v l]; simpl; [by constructor|].
      destruct (ExtractCorrect.date_geb t v); constructor; [done|].
      by apply HdRel_inv in Hhd.
Qed.

(** [extract_correct] writes its records latest date first, and they are
    the records of the loop in another order. *)
Theorem extract_correct_output_is_sorted (sh : sheet) :
  Sorted (fun a b => String.leb (Txn.date b) (Txn.date a) = true)
         (extract_correct_records sh) /\
  match for_each ExtractCorrect.body ExtractCorrect.init
                 (ExtractCorrect.rows_2_to_1200 sh) with
  | Ok st => extract_correct_records sh ≡ₚ ExtractCorrect.transactions st
  | Raise _ => extract_correct_records sh = []
  end.
Proof.
  unfold extract_correct_records, ExtractCorrect.extract.
  destruct (for_each _ _ _) as [st|] eqn:E; simpl; [|by split; [constructor|]].
  split; [|apply sort_desc_perm].
  unfold ExtractCorrect.sort_desc.
  induction (ExtractCorrect.transactions st) as [|t l IH]; simpl.
  - constructor.
  - by apply insert_desc_sorted.
Qed.
End Identifiers.

(** ** gen_final_transactions: rows with a positive amount *)

Section PositiveAmounts.
Context `{Runtime}.

Lemma classify_positive a ty s :
  (0 < a)%Q -> GenFinal.classify a ty s = ("income", a, "income").
Proof.
  intros Ha. unfold GenFinal.classify.
  apply Qlt_bool_iff in Ha. by rewrite Ha.
Qed.

(** C10: in [gen_final_transactions] a row whose amount is strictly
    positive, when it is emitted, is emitted with type income and category
    income, whatever columns B and C hold; it is emitted as soon as the
    date lies in the period and column C is not empty; and the outcome of
    the loop body does not depend on column B at all for such a row. *)
Theorem C10_positive_amount_is_income (st : GenFinal.state) (r : row) (a : Q) :
  float (cell r 4) = Ok a -> (0 < a)%Q ->
  (forall st', GenFinal.body st r = Ok st' ->
     st' = st \/
     exists t,
       GenFinal.transactions st' = (GenFinal.transactions st ++ [t])%list /\
       Txn.type t = "income" /\ Txn.category t = "income" /\
       Txn.amount t = VFloat a) /\
  (forall d,
     cell r 0 = VDate d ->
     datetime_leb GenFinal.period1_start d = true ->
     datetime_leb d GenFinal.period1_end = true ->
     truthy (cell r 2) = true -> truthy (cell r 4) = true ->
     exists st' t,
       GenFinal.body st r = Ok st' /\
       GenFinal.transactions st' = (GenFinal.transactions st ++ [t])%list /\
       Txn.type t = "income" /\ Txn.category t = "income") /\
  (forall r' : row,
     (forall k, k <> 1%nat -> cell r' k = cell r k) ->
     GenFinal.body st r' = GenFinal.body st r).
Proof.
  intros Hf Ha. split; [|split].
  - intros st' Hb.
    apply gen_final_body_cases in Hb as [->|(t & Ht & d & a' & _ & _ & Hf' & Hrec)];
      [by left|].
    right. exists t. split; [done|].
    rewrite Hf in Hf'. injection Hf' as <-.
    cbv zeta in Hrec. rewrite classify_positive in Hrec by done. by subst t.
  - intros d Hd Hs He Hc Hamt.
    unfold GenFinal.body. rewrite Hd. simpl.
    rewrite Hc, Hamt, Hs, He. simpl.
    assert (eq_num (cell r 4) 0 = false) as ->.
    { destruct (cell r 4) as [|s|z|q|b|d']; simpl in *; try done.
      - apply negb_true_iff, Z.eqb_neq in Hamt.
        unfold Qeq_bool; simpl. rewrite Z.mul_1_r. by apply Z.eqb_neq.
      - by apply negb_true_iff in Hamt.
      - injection Hf as <-. by destruct b. }
    rewrite Hf. rewrite classify_positive by done.
    eexists _, _. split; [reflexivity|]. done.
  - intros r' Hr'. unfold GenFinal.body.
    rewrite (Hr' 0%nat), (Hr' 2%nat), (Hr' 3%nat), (Hr' 4%nat) by lia.
    destruct (negb _); [done|].
    destruct (cell r 0); try done.
    destruct (negb _); [done|].
    destruct (eq_num _ _); [done|].
    rewrite Hf. by rewrite !classify_positive.
Qed.

End PositiveAmounts.

(** ** How the category is resolved *)

Section Resolution.
Context `{Runtime}.

Lemma map_to_type_and_category_text (ty cat : option string) :
  ExtractFinal.map_to_type_and_category (text_cell ty) (text_cell cat) =
  Ok (let type_lower := strip (lower (default "" ty)) in
      let category_lower := strip (lower (default "" cat)) in
      if String.eqb type_lower "income" then ("income", "income")
      else if String.eqb type_lower "expense"
      then first_match expense_patterns category_lower ("outflow", "other")
      else if String.eqb type_lower "transfer" then ("transfer", "savings")
      else ("outflow", "other")).
Proof.
  unfold ExtractFinal.map_to_type_and_category.
  assert (Ht : (if truthy (text_cell ty)
                then s ← lower_method (text_cell ty); mret (strip s)
                else mret "") = Ok (strip (lower (default "" ty)))).
  { destruct ty as [s|]; simpl; [|done].
    destruct (String.eqb_spec s ""); by subst. }
  assert (Hc : (s ← lower_method (or_else (text_cell cat) (VStr ""));
                mret (strip s)) = Ok (strip (lower (default "" cat)))).
  { unfold or_else. destruct cat as [s|]; simpl; [|done].
    destruct (String.eqb_spec s ""); by subst. }
  rewrite Ht. cbn [mbind result_bind]. rewrite Hc. cbn [mbind result_bind mret result_ret].
  f_equal. cbv zeta.
  generalize (strip (lower (default "" cat))) as c. intros c.
  cbn [first_match expense_patterns existsb].
  rewrite !orb_false_r, !orb_assoc. reflexivity.
Qed.

(** C1, amended: [extract_final] decides by the type first and checks the
    ordered substring patterns only for an expense, with other when none
    occurs; [gen_final_transactions] and [extract_correct] look the exact
    category text up in a table, the first after testing the sign of the
    amount and with bill (savings for a transfer) when the key is absent,
    the second after testing the type and with other when the key is
    absent. *)
Theorem C1_category_resolution :
  (forall ty cat : option string,
     ExtractFinal.map_to_type_and_category (text_cell ty) (text_cell cat) =
     Ok (let type_lower := strip (lower (default "" ty)) in
         let category_lower := strip (lower (default "" cat)) in
         if String.eqb type_lower "income" then ("income", "income")
         else if String.eqb type_lower "expense"
         then first_match expense_patterns category_lower ("outflow", "other")
         else if String.eqb type_lower "transfer" then ("transfer", "savings")
         else ("outflow", "other"))) /\
  (forall st r st',
     GenFinal.body st r = Ok st' ->
     st' = st \/
     exists t a,
       GenFinal.transactions st' = (GenFinal.transactions st ++ [t])%list /\
       float (cell r 4) = Ok a /\
       Txn.category t =
         if Qlt_bool 0 a then "income"
         else default
                (if truthy (cell r 1) && contains "Transfer" (str (cell r 1))
                 then "savings" else "bill")
                (GenFinal.CATEGORY_MAPPING !! strip (str (cell r 2)))) /\
  (forall st r st',
     ExtractCorrect.body st r = Ok st' ->
     st' = st \/
     exists t,
       ExtractCorrect.transactions st'
         = (ExtractCorrect.transactions st ++ [t])%list /\
       Txn.category t =
         if eq_str (cell r 1) "Income" then "income"
         else if eq_str (cell r 1) "Transfer" then "savings"
         else default "other"
                (ExtractCorrect.category_to_app
                   !! (if truthy (cell r 2) then str (cell r 2) else ""))).
Proof.
  split; [exact map_to_type_and_category_text|]. split.
  - intros st r st' Hb.
    apply gen_final_body_cases in Hb as [->|(t & Ht & d & a & _ & _ & Hf & Hrec)];
      [by left|].
    right. exists t, a. repeat (split; [done|]).
    cbv zeta in Hrec. subst t. unfold GenFinal.classify.
    cbn [Txn.category].
    destruct (Qlt_bool 0 a); [reflexivity|].
    destruct (truthy (cell r 1) && contains "Transfer" (str (cell r 1)));
      reflexivity.
  - intros st r st' Hb.
    apply extract_correct_body_cases in Hb
      as [->|(t & Ht & d & a & _ & _ & _ & _ & Hrec)]; [by left|].
    right. exists t. split; [done|].
    cbv zeta in Hrec. subst t. unfold correct_class.
    cbn [Txn.category].
    destruct (eq_str (cell r 1) "Income"); [reflexivity|].
    destruct (eq_str (cell r 1) "Transfer"); reflexivity.
Qed.

End Resolution.

(** ** Rows that are passed over, and unknown categories *)

Section Skipping.
Context `{Runtime}.

Lemma row_get_lt (r : row) (k : nat) :
  (k < length r)%nat -> row_get r k = Ok (cell r k).
Proof.
  intros Hk. unfold row_get, cell.
  destruct (lookup_lt_is_Some_2 r k Hk) as [v ->]. reflexivity.
Qed.

Lemma truthy_first_cell (r : row) :
  truthy (cell r 0) = true -> existsb truthy r = true.
Proof.
  destruct r as [|v r]; simpl; [discriminate|].
  unfold cell; simpl. by intros ->.
Qed.

Lemma first_match_none {R : Type} (s : string) (dflt : R) rules :
  forallb (fun rule => negb (existsb (fun p => contains p s) rule.1)) rules = true ->
  first_match rules s dflt = dflt.
Proof.
  induction rules as [|[pats res] rules IH]; simpl; [done|].
  intros [Hp Hr]%andb_prop. apply negb_true_iff in Hp. rewrite Hp. auto.
Qed.

(** The first steps of the [extract_final] body on a row of eight cells
    or more that is not blank. *)
Lemma extract_final_body_wide st r :
  (8 <= length r)%nat ->
  ExtractFinal.body st r =
    if negb (existsb truthy r) then Ok st
    else if negb (truthy (cell r 0)) || is_none (cell r 4) then Ok st
    else
      mapped ← ExtractFinal.map_to_type_and_category (cell r 1) (cell r 2);
      match float (cell r 4) with
      | Raise _ => Ok st
      | Ok a =>
          Ok (ExtractFinal.mkstate
                (ExtractFinal.transactions st ++
                 [ {| Txn.id := txn_label (ExtractFinal.txn_id st);
                      Txn.date :=
                        match cell r 0 with
                        | VDate d => strftime_ymd d
                        | v => str v
                        end;
                      Txn.label :=
                        VStr (if truthy (cell r 3) then str (cell r 3) else "");
                      Txn.amount := VFloat a;
                      Txn.type := mapped.1;
                      Txn.category := mapped.2;
                      Txn.notes :=
                        VStr (let notes :=
                                if truthy (cell r 7)
                                   && negb (startswith "=" (str (cell r 7)))
                                then cell r 7 else VStr "" in
                              if truthy notes then strip (str notes) else "");
                      Txn.linkedRuleId := None |} ])
                (ExtractFinal.txn_id st + 1))
      end.
Proof.
  intros Hlen. unfold ExtractFinal.body.
  rewrite !row_get_lt by lia. cbn [mbind result_bind mret result_ret].
  repeat case_match; try reflexivity; congruence.
Qed.

Lemma extract_correct_body_wide st r :
  (9 <= length r)%nat ->
  truthy (cell r 0) = false \/ truthy (cell r 4) = false ->
  ExtractCorrect.body st r = Ok st.
Proof.
  intros Hlen Hmiss. unfold ExtractCorrect.body.
  rewrite !row_get_lt by lia. cbn [mbind result_bind mret result_ret].
  destruct Hmiss as [-> | ->]; cbn [negb]; rewrite ?orb_true_r; reflexivity.
Qed.

(** C6, amended.  In [extract_final], on a row of at least eight cells: a
    row whose date cell is empty or whose amount cell is [None] is passed
    over and the loop goes on; so is a row whose amount [float] cannot
    read, when the type and category cells hold text or nothing; and a row
    that passes, with a type other than income and transfer and a category
    in which no pattern occurs, gives a record with category other.  In
    [extract_correct], on a row of at least nine cells: a row whose date or
    amount cell is empty is passed over and the loop goes on; and a row of
    period 1 with a date, an amount [float] reads, a type other than Income
    and Transfer and a category absent from the table gives a record with
    category other. *)
Theorem C6_skipped_rows_and_unknown_categories :
  (forall st (r : row) rest,
     (8 <= length r)%nat ->
     truthy (cell r 0) = false \/ cell r 4 = VNone ->
     for_each ExtractFinal.body st (r :: rest)
       = for_each ExtractFinal.body st rest) /\
  (forall st (r : row) rest ty cat e,
     (8 <= length r)%nat ->
     cell r 1 = text_cell ty -> cell r 2 = text_cell cat ->
     float (cell r 4) = Raise e ->
     for_each ExtractFinal.body st (r :: rest)
       = for_each ExtractFinal.body st rest) /\
  (forall st (r : row) ty cat a,
     (8 <= length r)%nat ->
     truthy (cell r 0) = true ->
     cell r 1 = text_cell ty -> cell r 2 = text_cell cat ->
     float (cell r 4) = Ok a ->
     String.eqb (strip (lower (default "" ty))) "income" = false ->
     String.eqb (strip (lower (default "" ty))) "transfer" = false ->
     no_pattern_occurs (strip (lower (default "" cat))) = true ->
     exists st' t,
       ExtractFinal.body st r = Ok st' /\
       ExtractFinal.transactions st'
         = (ExtractFinal.transactions st ++ [t])%list /\
       Txn.category t = "other") /\
  (forall st (r : row) rest,
     (9 <= length r)%nat ->
     truthy (cell r 0) = false \/ truthy (cell r 4) = false ->
     for_each ExtractCorrect.body st (r :: rest)
       = for_each ExtractCorrect.body st rest) /\
  (forall st (r : row) d a,
     (9 <= length r)%nat ->
     eq_num (cell r 8) 1 = true ->
     cell r 0 = VDate d ->
     truthy (cell r 4) = true -> float (cell r 4) = Ok a ->
     eq_str (cell r 1) "Income" = false ->
     eq_str (cell r 1) "Transfer" = false ->
     ExtractCorrect.category_to_app
       !! (if truthy (cell r 2) then str (cell r 2) else "") = None ->
     exists st' t,
       ExtractCorrect.body st r = Ok st' /\
       ExtractCorrect.transactions st'
         = (ExtractCorrect.transactions st ++ [t])%list /\
       Txn.category t = "other").
Proof.
  repeat split.
  - intros st r rest Hlen Hmiss. apply for_each_skip.
    rewrite extract_final_body_wide by done.
    destruct (negb (existsb truthy r)); [done|].
    destruct Hmiss as [-> | ->]; cbn [negb is_none]; rewrite ?orb_true_r;
      reflexivity.
  - intros st r rest ty cat e Hlen Hty Hcat Hf. apply for_each_skip.
    rewrite extract_final_body_wide by done.
    destruct (negb (existsb truthy r)); [done|].
    destruct (negb (truthy (cell r 0)) || is_none (cell r 4)); [done|].
    rewrite Hty, Hcat, map_to_type_and_category_text.
    cbn [mbind result_bind]. by rewrite Hf.
  - intros st r ty cat a Hlen Hdate Hty Hcat Hf Hinc Htr Hpat.
    rewrite extract_final_body_wide by done.
    rewrite (truthy_first_cell r Hdate), Hdate. cbn [negb orb].
    assert (is_none (cell r 4) = false) as ->.
    { by destruct (cell r 4). }
    rewrite Hty, Hcat, map_to_type_and_category_text.
    cbn [mbind result_bind]. rewrite Hf.
    eexists _, _. split; [reflexivity|]. split; [reflexivity|].
    cbn [Txn.category]. cbv zeta. rewrite Hinc, Htr.
    rewrite (first_match_none _ _ _ Hpat). by destruct (String.eqb _ "expense").
  - intros st r rest Hlen Hmiss. apply for_each_skip.
    by apply extract_correct_body_wide.
  - intros st r d a Hlen Hp Hd Ht Hf Hinc Htr Hcat.
    unfold ExtractCorrect.body.
    rewrite !row_get_lt by lia. cbn [mbind result_bind mret result_ret].
    rewrite Hp, Hd, Ht. cbn [negb orb truthy].
    rewrite Hinc, Htr, Hcat, Hf. cbn [mbind result_bind mret result_ret].
    eexists _, _. split; [reflexivity|]. split; reflexivity.
Qed.

End Skipping.

(** ** The actual totals of calc_corrected_variance *)

Module ActualTotals.
Import CalcVariance.

Lemma accumulate_lookup (m : gmap string Q) (t : parsed) (c : string) :
  default 0%Q (accumulate m t !! c) =
  if counts_toward c t then (default 0 (m !! c) + amount t)%Q
  else default 0%Q (m !! c).
Proof.
  unfold accumulate, counts_toward.
  set (m' := match m !! category t with
             | Some _ => m
             | None => <[category t := 0%Q]> m
             end).
  assert (Hm' : forall k, default 0%Q (m' !! k) = default 0%Q (m !! k)).
  { intros k. subst m'. destruct (m !! category t) eqn:E; [done|].
    destruct (decide (category t = k)) as [<-|Hne].
    - by rewrite lookup_insert_eq, E.
    - by rewrite lookup_insert_ne. }
  destruct (String.eqb (type t) "income").
  - destruct (String.eqb_spec c "income") as [->|Hne].
    + by rewrite lookup_insert_eq, Hm'.
    + rewrite lookup_insert_ne by done. apply Hm'.
  - destruct (String.eqb (type t) "transfer"); [apply Hm'|].
    destruct (String.eqb_spec (category t) c) as [<-|Hne].
    + by rewrite lookup_insert_eq, Hm'.
    + rewrite lookup_insert_ne by done. apply Hm'.
Qed.

Lemma foldl_accumulate_lookup (l : list parsed) (m : gmap string Q) (c : string) :
  default 0%Q (foldl accumulate m l !! c) =
  foldl Qplus (default 0%Q (m !! c)) (amount <$> List.filter (counts_toward c) l).
Proof.
  revert m. induction l as [|t l IH]; intros m; simpl; [done|].
  rewrite IH, accumulate_lookup.
  by destruct (counts_toward c t).
Qed.

(** C8, amended: for every category the actual total that the variance
    calculation reports is the sum of the amounts of the parsed records
    that count toward it: for income, the records of type income (whatever
    their category) and the outflows with category income; for any other
    category, the outflows with that category.  Transfers count nowhere. *)
Theorem C8_actual_totals (transactions : list (string * parsed)) :
  (forall c : string,
     default 0%Q (actuals_of transactions !! c)
       = total_where (counts_toward c) (transactions.*2)) /\
  Forall (fun line =>
            line.2 = total_where (counts_toward line.1) (transactions.*2))
         (actual_totals (actuals_of transactions)) /\
  Forall (fun r =>
            row_actual r
              = total_where (counts_toward (row_category r)) (transactions.*2))
         (variance_table (actuals_of transactions)).
Proof.
  assert (Hc : forall c : string,
             default 0%Q (actuals_of transactions !! c)
               = total_where (counts_toward c) (transactions.*2)).
  { intros c. unfold actuals_of, total_where.
    by rewrite foldl_accumulate_lookup, lookup_empty. }
  split; [exact Hc|]. split.
  - unfold actual_totals. apply Forall_forall. intros [c v] Hin.
    apply list_elem_of_omap in Hin as (c' & _ & Hv).
    destruct (actuals_of transactions !! c') as [v'|] eqn:E; [|discriminate].
    injection Hv as <- <-. cbn [fst snd]. by rewrite <- Hc, E.
  - unfold variance_table. rewrite Forall_fmap. apply Forall_forall.
    intros c _. simpl. apply Hc.
Qed.

End ActualTotals.

(** ** Determinism of the runs *)



Module GenFinalDeterminism.
Import GenFinal GenFinalRun.
Section Proofs.
Context `{Runtime}.


Lemma gen_final_step_body st r : step st r (body st r).
Proof.
  unfold body. cbn [forallb].
  destruct (truthy (cell r 0)) eqn:E0; cbn [forallb andb negb];
    [|apply skip_empty; auto].
  destruct (truthy (cell r 2)) eqn:E2; cbn [forallb andb negb];
    [|apply skip_empty; auto].
  destruct (truthy (cell r 4)) eqn:E4; cbn [forallb andb negb];
    [|apply skip_empty; auto].
  destruct (cell r 0) as [| | | | |d] eqn:Ed;
    try (apply skip_not_datetime; by rewrite ?Ed).
  destruct (datetime_leb period1_start d) eqn:Es; cbn [andb negb];
    [|exact (skip_out_of_period st r d E2 E4 Ed (or_introl Es))].
  destruct (datetime_leb d period1_end) eqn:Ee; cbn [andb negb];
    [|exact (skip_out_of_period st r d E2 E4 Ed (or_intror Ee))].
  destruct (eq_num (cell r 4) 0) eqn:Ez;
    [exact (skip_zero st r d E2 E4 Ed Es Ee Ez)|].
  assert (Hadm : admitted r d) by (unfold admitted; by rewrite Ed).
  destruct (float (cell r 4)) as [a|e] eqn:Ef;
    [|eapply skip_unreadable; eauto].
  unfold classify.
  destruct (Qlt_bool 0 a) eqn:Ea.
  - apply Qlt_bool_iff in Ea. by apply (emit_income st r d a).
  - apply Qlt_bool_false in Ea.
    destruct (truthy (cell r 1)) eqn:Et; cbn [andb].
    + destruct (contains "Transfer" (str (cell r 1))) eqn:Ec.
      * by apply (emit_transfer st r d a).
      * apply (emit_outflow st r d a); auto.
    + apply (emit_outflow st r d a); auto.
Qed.



End Proofs.
End GenFinalDeterminism.

Module ExtractCorrectDeterminism.
Import ExtractCorrect ExtractCorrectRun.
Section Proofs.
Context `{Runtime}.


Lemma row_get_raise (r : row) k e :
  row_get r k = Raise e -> e = IndexError /\ (length r <= k)%nat.
Proof.
  unfold row_get. destruct (r !! k) eqn:E; [discriminate|].
  intros [= <-]. split; [done|]. by apply lookup_ge_None.
Qed.

Lemma row_get_ok (r : row) k v :
  row_get r k = Ok v -> v = cell r k /\ (k < length r)%nat.
Proof.
  unfold row_get, cell. destruct (r !! k) eqn:E; [|discriminate].
  intros [= <-]. split; [done|]. by eapply lookup_lt_Some.
Qed.

Lemma extract_correct_step_body st r : step st r (body st r).
Proof.
  unfold body.
  destruct (row_get r 0) as [v0|e] eqn:G0; cbn [mbind result_bind];
    [|apply row_get_raise in G0 as [-> ?]; apply raise_short; lia].
  destruct (row_get r 1) as [v1|e] eqn:G1; cbn [mbind result_bind];
    [|apply row_get_raise in G1 as [-> ?]; apply raise_short; lia].
  destruct (row_get r 2) as [v2|e] eqn:G2; cbn [mbind result_bind];
    [|apply row_get_raise in G2 as [-> ?]; apply raise_short; lia].
  destruct (row_get r 3) as [v3|e] eqn:G3; cbn [mbind result_bind];
    [|apply row_get_raise in G3 as [-> ?]; apply raise_short; lia].
  destruct (row_get r 4) as [v4|e] eqn:G4; cbn [mbind result_bind];
    [|apply row_get_raise in G4 as [-> ?]; apply raise_short; lia].
  destruct (row_get r 8) as [v8|e] eqn:G8; cbn [mbind result_bind];
    [|apply row_get_raise in G8 as [-> ?]; apply raise_short; lia].
  apply row_get_ok in G0 as [-> _], G1 as [-> _], G2 as [-> _],
    G3 as [-> _], G4 as [-> _], G8 as [-> Hlen].
  destruct (eq_num (cell r 8) 1) eqn:Ep; cbn [negb orb];
    [|apply skip_guard; [lia|auto]].
  destruct (truthy (cell r 0)) eqn:Ed; cbn [negb orb];
    [|apply skip_guard; [lia|auto]].
  destruct (truthy (cell r 4)) eqn:Ea; cbn [negb orb];
    [|apply skip_guard; [lia|auto]].
  destruct (cell r 0) as [| | | | |d] eqn:E0;
    try (apply skip_not_datetime; rewrite ?E0; done || lia).
  assert (Hadm : admitted r d).
  { unfold admitted. rewrite E0. repeat split; done || lia. }
  fold (category_str r).
  destruct (float (cell r 4)) as [a|e] eqn:Ef.
  - destruct (eq_str (cell r 1) "Income") eqn:Ei;
      cbn [mbind result_bind mret result_ret].
    { by apply (emit_income st r d a). }
    destruct (eq_str (cell r 1) "Transfer") eqn:Et;
      cbn [mbind result_bind mret result_ret].
    { by apply (emit_transfer st r d a). }
    destruct (category_to_app !! category_str r) as [c|] eqn:Ec;
      cbn [mbind result_bind mret result_ret].
    + by apply (emit_mapped st r d a c).
    + by apply (emit_unmapped st r d a).
  - destruct (eq_str (cell r 1) "Income");
      [|destruct (eq_str (cell r 1) "Transfer");
        [|destruct (category_to_app !! category_str r)]];
      cbn [mbind result_bind mret result_ret];
      by apply (raise_unreadable st r d e).
Qed.



End Proofs.
End ExtractCorrectDeterminism.


(** ** Sums and counts over records *)

Lemma Qsum_app (l1 l2 : list Q) : (Qsum (l1 ++ l2) == Qsum l1 + Qsum l2)%Q.
Proof.
  induction l1 as [|x l1 IH]; simpl; [lra|]. rewrite IH. lra.
Qed.





Lemma amount_where_snoc p (l : list Txn.t) (t : Txn.t) :
  (amount_where p (l ++ [t])
   == amount_where p l + (if p t then number_of (Txn.amount t) else 0))%Q.
Proof.
  unfold amount_where. rewrite List.filter_app, fmap_app, Qsum_app. simpl.
  destruct (p t); simpl; lra.
Qed.

Lemma count_where_snoc p (l : list Txn.t) (t : Txn.t) :
  count_where p (l ++ [t])
  = (count_where p l + (if p t then 1 else 0))%nat.
Proof.
  unfold count_where. rewrite List.filter_app, length_app. simpl.
  by destruct (p t).
Qed.





(** ** extract_correct: the tallies and the report *)

Section CorrectTallies.
Context `{Runtime}.








End CorrectTallies.




Section CorrectReport.
Context `{Runtime}.



End CorrectReport.

(** ** extract_period1: the three totals, and what stops the run *)

(** A loop whose body never raises ends. *)
Lemma for_each_total {S A : Type} (body : S -> A -> result S) :
  (forall s a, exists s', body s a = Ok s') ->
  forall l s, exists s', for_each body s l = Ok s'.
Proof.
  intros Hb l. induction l as [|a l IH]; intros s; simpl; [by eexists|].
  destruct (Hb s a) as [s1 ->]. apply IH.
Qed.







Section Period1Totals.
Context `{Runtime}.





End Period1Totals.

Section Period1Failures.
Context `{Runtime}.





End Period1Failures.

(** ** gen_final_transactions: the summary, the period and what stops
    the run *)

Lemma category_mapping_range (s dflt : string) :
  dflt ∈ ["income"; "giving"; "bill"; "savings"] ->
  default dflt (GenFinal.CATEGORY_MAPPING !! s)
    ∈ ["income"; "giving"; "bill"; "savings"].
Proof.
  intros Hd. destruct (GenFinal.CATEGORY_MAPPING !! s) as [c|] eqn:E;
    cbn [default from_option id]; [|done].
  apply lookup_table_elem in E. split_elem E; simplify_eq; solve_elem.
Qed.

Section GenFinalLoop.
Context `{Runtime}.

(** What a pass of the body that appends a record does to the state. *)
Lemma gen_final_body_push st r st' :
  GenFinal.body st r = Ok st' ->
  st' = st \/
  exists t a d,
    st' = GenFinalRun.push st t a /\
    Txn.amount t = VFloat a /\
    Txn.category t ∈ ["income"; "giving"; "bill"; "savings"] /\
    Txn.linkedRuleId t = None /\
    Txn.label t = cell r 3 /\
    (exists s, Txn.notes t = VStr s) /\
    cell r 0 = VDate d /\ Txn.date t = strftime_ymd d /\ in_period1 d.
Proof.
  intros Hb.
  pose proof (GenFinalDeterminism.gen_final_step_body st r) as Hs.
  rewrite Hb in Hs. remember (Ok st') as o eqn:Ho.
  destruct Hs;
    apply (f_equal (fun o => match o with Ok s => s | Raise _ => st end)) in Ho;
    cbv beta iota in Ho; subst st'.
  1-5: left; reflexivity.
  all: right; eexists _, _, _; split; [reflexivity|]; split; [reflexivity|].
  all: match goal with
       | Ha : GenFinalRun.admitted _ _ |- _ =>
           destruct Ha as (_ & _ & _ & Hd & Hs1 & Hs2 & _)
       end.
  all: cbn [GenFinalRun.record Txn.category Txn.linkedRuleId Txn.label
            Txn.notes Txn.date].
  all: split; [first [apply category_mapping_range; solve_elem | solve_elem]|].
  all: repeat (split; [first [reflexivity | by eexists | exact Hd]|]).
  all: by split.
Qed.

Lemma gen_final_loop_total l st :
  exists st', for_each GenFinal.body st l = Ok st'.
Proof.
  apply for_each_total. clear. intros st r.
  pose proof (GenFinalDeterminism.gen_final_step_body st r) as Hs.
  destruct (GenFinal.body st r) as [st'|e]; [by eexists|].
  remember (Raise e) as o eqn:Ho. destruct Hs; discriminate Ho.
Qed.

End GenFinalLoop.

Lemma total_matches_keep p l t o :
  p t = false -> total_matches p l o -> total_matches p (l ++ [t]) o.
Proof.
  intros Hp. unfold total_matches.
  rewrite count_where_snoc, Hp, Nat.add_0_r.
  destruct o as [q|]; [|done].
  intros (Hq & Hpos). split; [|done].
  rewrite amount_where_snoc, Hp. cbv iota. rewrite Hq. lra.
Qed.

Lemma total_matches_add p l t c a (m : gmap string Q) :
  p t = true -> Txn.amount t = VFloat a ->
  total_matches p l (m !! c) ->
  total_matches p (l ++ [t]) (GenFinal.add_total c a m !! c).
Proof.
  intros Hp Ha. unfold total_matches, GenFinal.add_total.
  rewrite lookup_insert_eq, count_where_snoc, amount_where_snoc, Hp, Ha.
  cbv iota. cbn [number_of].
  destruct (m !! c) as [q|]; cbn [default from_option id].
  - intros (Hq & Hpos). split; [|lia]. rewrite Hq. reflexivity.
  - intros Hc. split; [|lia].
    assert (amount_where p l == 0)%Q as ->; [|lra].
    unfold amount_where, count_where in *.
    destruct (List.filter p l); [reflexivity|discriminate].
Qed.








Section GenFinalSummaryProofs.
Context `{Runtime}.

(** What the loop keeps: every record has a float amount, one of four
    categories, text notes and no linked rule, and [category_totals] holds
    the sum of the amounts of each category. *)
Lemma gen_final_loop_invariant l st st' :
  for_each GenFinal.body st l = Ok st' ->
  (Forall (fun t => (exists q, Txn.amount t = VFloat q) /\
                    Txn.category t ∈ ["income"; "giving"; "bill"; "savings"] /\
                    Txn.linkedRuleId t = None /\
                    (exists s, Txn.notes t = VStr s))
          (GenFinal.transactions st) /\
   forall c, total_matches (has_category c) (GenFinal.transactions st)
               (GenFinal.category_totals st !! c)) ->
  Forall (fun t => (exists q, Txn.amount t = VFloat q) /\
                   Txn.category t ∈ ["income"; "giving"; "bill"; "savings"] /\
                   Txn.linkedRuleId t = None /\
                   (exists s, Txn.notes t = VStr s))
         (GenFinal.transactions st') /\
  forall c, total_matches (has_category c) (GenFinal.transactions st')
              (GenFinal.category_totals st' !! c).
Proof.
  intros Hrun Hinit. revert Hrun.
  apply (for_each_invariant
    (fun s =>
       Forall (fun t => (exists q, Txn.amount t = VFloat q) /\
                        Txn.category t ∈ ["income"; "giving"; "bill"; "savings"] /\
                        Txn.linkedRuleId t = None /\
                        (exists s, Txn.notes t = VStr s))
              (GenFinal.transactions s) /\
       forall c, total_matches (has_category c) (GenFinal.transactions s)
                   (GenFinal.category_totals s !! c))); [|done].
  clear. intros s r s' [Hall Htot] Hb.
  apply gen_final_body_push in Hb
    as [->|(t & a & d & -> & Ha & Hc & Hl & _ & Hn & _)]; [done|].
  cbn [GenFinalRun.push GenFinal.transactions GenFinal.category_totals].
  split.
  - apply Forall_app. split; [done|]. constructor; [|constructor].
    split; [by eexists|done].
  - intros c. destruct (String.eqb_spec (Txn.category t) c) as [<-|Hne].
    + apply total_matches_add; [apply String.eqb_refl|done|apply Htot].
    + unfold GenFinal.add_total. rewrite lookup_insert_ne by done.
      apply total_matches_keep; [|apply Htot].
      unfold has_category. by apply String.eqb_neq.
Qed.


End GenFinalSummaryProofs.

Section GenFinalFailures.
Context `{Runtime}.



End GenFinalFailures.

(** ** gen_final_transactions: the period *)

Lemma in_period1_last_day (d : datetime) :
  year d = 2026%N -> month d = 1%N -> day d = 25%N ->
  in_period1 d <->
  hour d = 0%N /\ minute d = 0%N /\ second d = 0%N /\ microsecond d = 0%N.
Proof.
  intros Hy Hm Hd. unfold in_period1, datetime_leb, datetime_key.
  unfold GenFinal.period1_start, GenFinal.period1_end.
  cbn [year month day hour minute second microsecond].
  rewrite Hy, Hm, Hd. cbn [lex_leb]. 
  change (2025 <? 2026)%N with true. cbv iota.
  change (2026 <? 2026)%N with false. change (1 <? 1)%N with false.
  change (25 <? 25)%N with false. cbv iota.
  repeat match goal with
         | |- context [(?x <? 0)%N] =>
             replace (x <? 0)%N with false
               by (symmetry; apply N.ltb_ge; lia)
         end.
  destruct (N.ltb_spec 0 (hour d)); [split; [intros [_ ?]; done|lia]|].
  destruct (N.ltb_spec 0 (minute d)); [split; [intros [_ ?]; done|lia]|].
  destruct (N.ltb_spec 0 (second d)); [split; [intros [_ ?]; done|lia]|].
  destruct (N.ltb_spec 0 (microsecond d)); [split; [intros [_ ?]; done|lia]|].
  split; [lia|done].
Qed.

Lemma in_period1_first_day (d : datetime) :
  year d = 2025%N -> month d = 12%N -> day d = 22%N -> in_period1 d.
Proof.
  intros Hy Hm Hd. unfold in_period1, datetime_leb, datetime_key.
  unfold GenFinal.period1_start, GenFinal.period1_end.
  cbn [year month day hour minute second microsecond].
  rewrite Hy, Hm, Hd. cbn [lex_leb].
  change (2025 <? 2025)%N with false. change (12 <? 12)%N with false.
  change (22 <? 22)%N with false. change (2025 <? 2026)%N with true.
  cbv iota.
  repeat match goal with
         | |- context [(?x <? 0)%N] =>
             replace (x <? 0)%N with false
               by (symmetry; apply N.ltb_ge; lia)
         end.
  split; [|done].
  destruct (0 <? hour d)%N; [done|]. destruct (0 <? minute d)%N; [done|].
  destruct (0 <? second d)%N; [done|]. by destruct (0 <? microsecond d)%N.
Qed.

Section GenFinalPeriod.
Context `{Runtime}.

(** [gen_final_transactions]: every record written comes from a row
    whose date lies in the period.  A row dated 25 January 2026 is passed
    over unless its time of day is midnight, while a row dated 22 December
    2025 is in the period at any time of day. *)
Theorem gen_final_writes_only_the_period :
  (forall sh,
     Forall (fun t => exists d, Txn.date t = strftime_ymd d /\ in_period1 d)
            (gen_final_records sh)) /\
  (forall st r d,
     cell r 0 = VDate d ->
     year d = 2026%N -> month d = 1%N -> day d = 25%N ->
     (hour d, minute d, second d, microsecond d) <> (0, 0, 0, 0)%N ->
     GenFinal.body st r = Ok st) /\
  (forall d,
     year d = 2025%N -> month d = 12%N -> day d = 22%N -> in_period1 d).
Proof.
  split; [|split].
  - intros sh. unfold gen_final_records, GenFinal.extract.
    destruct (for_each _ _ _) as [st|] eqn:E; cbn [mbind result_bind];
      [|constructor].
    destruct (json_dump _) as [js|] eqn:Ej; cbn [mbind result_bind mret result_ret];
      [|constructor].
    apply json_dump_ok in Ej as ->. cbn [GenFinal.json].
    revert E. apply (for_each_invariant
      (fun s => Forall (fun t => exists d, Txn.date t = strftime_ymd d
                                           /\ in_period1 d)
                       (GenFinal.transactions s))); [|constructor].
    intros s r s' Hs Hb.
    apply gen_final_body_push in Hb
      as [->|(t & a & d & -> & _ & _ & _ & _ & _ & _ & Hd & Hp)]; [done|].
    cbn [GenFinalRun.push GenFinal.transactions].
    apply Forall_app. split; [done|]. constructor; [|constructor]. by exists d.
  - intros st r d Hcell Hy Hm Hd Htime.
    destruct (GenFinal.body st r) as [st'|e] eqn:Hb.
    + apply gen_final_body_push in Hb
        as [->|(t & a & d' & _ & _ & _ & _ & _ & _ & Hd' & _ & Hp)]; [done|].
      exfalso. rewrite Hcell in Hd'. injection Hd' as <-.
      apply in_period1_last_day in Hp as (Hh & Hmi & Hs & Hu); [|done..].
      apply Htime. by rewrite Hh, Hmi, Hs, Hu.
    + destruct (gen_final_loop_total [r] st) as [st' Hst'].
      simpl in Hst'. by rewrite Hb in Hst'.
  - apply in_period1_first_day.
Qed.

End GenFinalPeriod.

(** ** gen_ts_transactions on the files of the two writers *)

Lemma string_append_assoc (a b c : string) :
  (a +:+ b) +:+ c = a +:+ (b +:+ c).
Proof.
  induction a as [|x a IH]; [done|].
  change (String x ((a +:+ b) +:+ c) = String x (a +:+ (b +:+ c))).
  by rewrite IH.
Qed.

Lemma ends_with_refl (s : string) : ends_with s s.
Proof. by exists "". Qed.

Lemma ends_with_append (suffix p s : string) :
  ends_with suffix s -> ends_with suffix (p +:+ s).
Proof.
  intros [before ->]. exists (p +:+ before).
  by rewrite string_append_assoc.
Qed.

Section GenTsProofs.
Context `{Runtime}.

(** The lines printed when every record gives a line. *)
Lemma print_lines_all (P : Txn.t -> string -> Prop) (l : list Txn.t) :
  Forall (fun t => exists s, GenTs.line t = Ok s /\ P t s) l ->
  exists lines, GenTs.print_lines l = (lines, Ok tt) /\ Forall2 P l lines.
Proof.
  induction 1 as [|t l (s & Hs & HP) _ (lines & IH & Hl)]; [by exists []|].
  exists (s :: lines). simpl. rewrite Hs, IH. split; [done|]. by constructor.
Qed.

Lemma extract_correct_record_line st r t :
  extract_correct_record st r t ->
  exists s, GenTs.line t = Ok s /\
    if String.eqb (Txn.category t) "savings"
    then ends_with (linked_to "savings") s
    else ends_with not_linked s.
Proof.
  intros (d & a & _ & _ & _ & _ & ->).
  unfold GenTs.line, GenTs.linked_rule, GenTs.get_linkedRuleId.
  cbn [Txn.label Txn.notes Txn.linkedRuleId Txn.category Txn.id Txn.date
       Txn.amount Txn.type GenFinal.replace_quotes mbind result_bind
       mret result_ret default from_option id].
  eexists. split; [reflexivity|].
  destruct (String.eqb _ "savings"); cbn [truthy String.eqb negb str];
    unfold linked_to, not_linked;
    repeat first [ apply ends_with_refl | apply ends_with_append ].
Qed.

(** [gen_ts_transactions] on the file that [extract_correct] writes
    never raises and prints one line for each record; every transfer has
    the category savings, and a line ends with the link to the savings
    rule when the category of its record is savings and with
    linkedRuleId: undefined otherwise. *)
Theorem gen_ts_links_the_savings_of_extract_correct
  (sh : sheet) (out : ExtractCorrect.output) :
  ExtractCorrect.extract sh = Ok out ->
  exists lines,
    GenTs.print_lines (ExtractCorrect.json out) = (lines, Ok tt) /\
    Forall2 (fun t s =>
               (Txn.type t = "transfer" -> Txn.category t = "savings") /\
               if String.eqb (Txn.category t) "savings"
               then ends_with (linked_to "savings") s
               else ends_with not_linked s)
            (ExtractCorrect.json out) lines.
Proof.
  intros Hrun. apply print_lines_all.
  pose proof (extract_correct_records_forall
    (fun t => exists s, GenTs.line t = Ok s /\
       (Txn.type t = "transfer" -> Txn.category t = "savings") /\
       if String.eqb (Txn.category t) "savings"
       then ends_with (linked_to "savings") s
       else ends_with not_linked s)) as Hall.
  unfold extract_correct_records in Hall.
  assert (Hrecord : forall st r t, extract_correct_record st r t ->
    exists s, GenTs.line t = Ok s /\
      (Txn.type t = "transfer" -> Txn.category t = "savings") /\
      if String.eqb (Txn.category t) "savings"
      then ends_with (linked_to "savings") s
      else ends_with not_linked s);
    [|specialize (Hall Hrecord sh); by rewrite Hrun in Hall].
  intros st r t Hrec.
  destruct (extract_correct_record_line st r t Hrec) as (s & Hs & He).
  exists s. split; [done|]. split; [|done].
  destruct Hrec as (d & a & _ & _ & _ & _ & ->). cbn [Txn.type Txn.category].
  pose proof (correct_class_range (cell r 1)
                (if truthy (cell r 2) then str (cell r 2) else "")) as Hc.
  destruct (correct_class _ _) as [ty c]. cbn [fst snd].
  intros ->. split_elem Hc; by simplify_eq.
Qed.

Lemma gen_ts_line_unlinked (t : Txn.t) :
  Txn.linkedRuleId t = None -> GenTs.line t = GenFinal.ts_line t.
Proof.
  intros Hl. unfold GenTs.line, GenFinal.ts_line, GenTs.linked_rule,
    GenTs.get_linkedRuleId. rewrite Hl.
  destruct (GenFinal.replace_quotes (Txn.label t)) as [label|];
    cbn [mbind result_bind]; [|done].
  destruct (GenFinal.replace_quotes (Txn.notes t)) as [notes|];
    cbn [mbind result_bind]; [|done].
  reflexivity.
Qed.

Lemma print_lines_mapM (l : list Txn.t) :
  match mapM GenTs.line l with
  | Ok ls => GenTs.print_lines l = (ls, Ok tt)
  | Raise e => (GenTs.print_lines l).2 = Raise e
  end.
Proof.
  induction l as [|t l IH]; [done|].
  cbn [mapM GenTs.print_lines]. fold (mapM GenTs.line l).
  destruct (GenTs.line t) as [s|e]; cbn [mbind result_bind]; [|done].
  destruct (mapM GenTs.line l) as [ls|e]; cbn [mbind result_bind mret result_ret].
  - by rewrite IH.
  - destruct (GenTs.print_lines l) as [out r]. by simpl in *.
Qed.

Lemma mapM_line_unlinked (l : list Txn.t) :
  Forall (fun t => Txn.linkedRuleId t = None) l ->
  mapM GenTs.line l = mapM GenFinal.ts_line l.
Proof.
  induction 1 as [|t l Ht _ IH]; [done|].
  cbn [mapM]. fold (mapM GenTs.line l). fold (mapM GenFinal.ts_line l).
  by rewrite (gen_ts_line_unlinked t Ht), IH.
Qed.

(** [gen_ts_transactions] on the file that [gen_final_transactions]
    writes prints the very lines that [gen_final_transactions] built
    itself, each ending with linkedRuleId: undefined, transfers included;
    and it stops with the same exception when building them raised. *)
Theorem gen_ts_repeats_the_lines_of_gen_final
  (sh : sheet) (out : GenFinal.output) :
  GenFinal.extract sh = Ok out ->
  match GenFinal.ts_lines out with
  | Ok ls =>
      GenTs.print_lines (GenFinal.json out) = (ls, Ok tt) /\
      Forall (ends_with not_linked) ls
  | Raise e => (GenTs.print_lines (GenFinal.json out)).2 = Raise e
  end.
Proof.
  unfold GenFinal.extract. intros Hrun.
  destruct (for_each _ _ _) as [st|] eqn:E; [|discriminate].
  cbn [mbind result_bind] in Hrun.
  destruct (json_dump _) as [js|] eqn:Ej; [|discriminate].
  apply json_dump_ok in Ej as ->. injection Hrun as <-.
  cbn [GenFinal.json GenFinal.ts_lines].
  destruct (gen_final_loop_invariant _ _ _ E) as [Hall _].
  { split; [constructor|]. intros c. cbn. by rewrite lookup_empty. }
  assert (Hnone : Forall (fun t => Txn.linkedRuleId t = None)
                         (GenFinal.transactions st)).
  { eapply Forall_impl; [exact Hall|]. by intros t (_ & _ & ? & _). }
  pose proof (print_lines_mapM (GenFinal.transactions st)) as Hp.
  rewrite (mapM_line_unlinked _ Hnone) in Hp.
  destruct (mapM GenFinal.ts_line (GenFinal.transactions st)) as [ls|e] eqn:Em;
    [|done].
  split; [done|].
  clear -Em. revert ls Em.
  induction (GenFinal.transactions st) as [|t l IH]; intros ls Em.
  - injection Em as <-. constructor.
  - cbn [mapM] in Em. fold (mapM GenFinal.ts_line l) in Em.
    destruct (GenFinal.ts_line t) as [s|] eqn:Es; [|discriminate].
    cbn [mbind result_bind] in Em.
    destruct (mapM GenFinal.ts_line l) as [ls'|]; [|discriminate].
    injection Em as <-. constructor; [|by apply IH].
    unfold GenFinal.ts_line in Es.
    destruct (GenFinal.replace_quotes (Txn.label t)); [|discriminate].
    destruct (GenFinal.replace_quotes (Txn.notes t)); [|discriminate].
    injection Es as <-. unfold not_linked.
    repeat first [ apply ends_with_refl | apply ends_with_append ].
Qed.

End GenTsProofs.

(** ** Types and categories go together *)

Section TypesAndCategories.
Context `{Runtime}.

Lemma classify_type_and_category a ty s :
  (GenFinal.classify a ty s).1.1 ∈ ["income"; "outflow"; "transfer"] /\
  ((GenFinal.classify a ty s).1.1 = "income" ->
   (GenFinal.classify a ty s).2 = "income").
Proof.
  unfold GenFinal.classify.
  destruct (Qlt_bool 0 a); [split; [solve_elem|done]|].
  destruct (truthy ty && contains "Transfer" (str ty)); cbn [fst snd];
    (split; [solve_elem|done]).
Qed.

(** The type of a record is income, outflow or transfer in the four
    extraction scripts, and an income record has the category income.  In
    [extract_final] type and category determine each other for income and
    for transfer and savings; in [extract_correct] only income records
    have the category income and every transfer has the category savings;
    in [extract_period1] every transfer has the category savings. *)
Theorem type_and_category_go_together (sh : sheet) :
  Forall (fun t =>
            Txn.type t ∈ ["income"; "outflow"; "transfer"] /\
            (Txn.type t = "income" <-> Txn.category t = "income") /\
            (Txn.type t = "transfer" <-> Txn.category t = "savings"))
         (extract_final_records sh) /\
  Forall (fun t =>
            Txn.type t ∈ ["income"; "outflow"; "transfer"] /\
            (Txn.type t = "income" <-> Txn.category t = "income") /\
            (Txn.type t = "transfer" -> Txn.category t = "savings"))
         (extract_correct_records sh) /\
  Forall (fun t =>
            Txn.type t ∈ ["income"; "outflow"; "transfer"] /\
            (Txn.type t = "income" -> Txn.category t = "income") /\
            (Txn.type t = "transfer" -> Txn.category t = "savings"))
         (extract_period1_records sh) /\
  Forall (fun t =>
            Txn.type t ∈ ["income"; "outflow"; "transfer"] /\
            (Txn.type t = "income" -> Txn.category t = "income"))
         (gen_final_records sh).
Proof.
  split; [|split; [|split]].
  - apply extract_final_records_forall.
    intros st r t (tp & c & a & Hm & _ & _ & ->). cbn [Txn.type Txn.category].
    apply map_to_type_and_category_range in Hm.
    split_elem Hm; simplify_eq; (split; [solve_elem|split; split; done]).
  - apply extract_correct_records_forall.
    intros st r t (d & a & _ & _ & _ & _ & ->). cbn [Txn.type Txn.category].
    pose proof (correct_class_range (cell r 1)
                  (if truthy (cell r 2) then str (cell r 2) else "")) as Hc.
    destruct (correct_class _ _) as [ty c]. cbn [fst snd].
    split_elem Hc; simplify_eq; (split; [solve_elem|split; [split|]; done]).
  - apply extract_period1_records_forall.
    intros st r t (_ & _ & _ & ->). cbn [Txn.type Txn.category].
    pose proof (period1_class_range (cell r 1) (cell r 2)) as Hc.
    destruct (period1_class _ _) as [ty c]. cbn [fst snd].
    split_elem Hc; simplify_eq; (split; [solve_elem|split; done]).
  - apply gen_final_records_forall.
    intros st r t (d & a & _ & _ & _ & ->). cbn [Txn.type Txn.category].
    apply classify_type_and_category.
Qed.

End TypesAndCategories.

(** ** extract_final: letter case and blanks around the text *)

Lemma lower_char_idemp (c : ascii) : lower_char (lower_char c) = lower_char c.
Proof. destruct c as [[] [] [] [] [] [] [] []]; reflexivity. Qed.

Lemma is_space_lower_char (c : ascii) : is_space (lower_char c) = is_space c.
Proof. destruct c as [[] [] [] [] [] [] [] []]; reflexivity. Qed.

Lemma lower_idemp (s : string) : lower (lower s) = lower s.
Proof.
  induction s as [|c s IH]; [done|]. cbn [lower].
  by rewrite lower_char_idemp, IH.
Qed.

Lemma lower_lstrip (s : string) :
  lstrip_by is_space (lower s) = lower (lstrip_by is_space s).
Proof.
  induction s as [|c s IH]; [done|]. cbn [lower lstrip_by].
  rewrite is_space_lower_char. by destruct (is_space c).
Qed.

Lemma lower_rstrip (s : string) :
  rstrip_by is_space (lower s) = lower (rstrip_by is_space s).
Proof.
  induction s as [|c s IH]; [done|]. cbn [lower rstrip_by].
  rewrite IH, is_space_lower_char.
  destruct (rstrip_by is_space s); cbn [lower]; [|done].
  by destruct (is_space c).
Qed.

Lemma lower_strip (s : string) : strip (lower s) = lower (strip s).
Proof. unfold strip, strip_by. by rewrite lower_lstrip, lower_rstrip. Qed.

Lemma rstrip_by_idemp p (s : string) :
  rstrip_by p (rstrip_by p s) = rstrip_by p s.
Proof.
  induction s as [|c s IH]; [done|]. cbn [rstrip_by].
  destruct (rstrip_by p s) as [|d r] eqn:E.
  - destruct (p c) eqn:Ep; [done|]. cbn [rstrip_by]. by rewrite Ep.
  - cbn [rstrip_by]. cbn [rstrip_by] in IH. by rewrite IH.
Qed.

Lemma rstrip_by_head p c (s : string) :
  p c = false -> exists r, rstrip_by p (String c s) = String c r.
Proof.
  intros Hc. cbn [rstrip_by]. destruct (rstrip_by p s); rewrite ?Hc; by eexists.
Qed.

Lemma lstrip_by_head p (s : string) :
  lstrip_by p s = "" \/
  exists c r, lstrip_by p s = String c r /\ p c = false.
Proof.
  induction s as [|c s IH]; [by left|]. cbn [lstrip_by].
  destruct (p c) eqn:Ep; [done|]. right. by exists c, s.
Qed.

Lemma strip_by_idemp p (s : string) : strip_by p (strip_by p s) = strip_by p s.
Proof.
  unfold strip_by.
  destruct (lstrip_by_head p s) as [->|(c & r & -> & Hc)]; [done|].
  destruct (rstrip_by_head p c r Hc) as [r' Hr]. rewrite Hr.
  cbn [lstrip_by]. rewrite Hc, <- Hr. apply rstrip_by_idemp.
Qed.

Section CaseAndBlanks.
Context `{Runtime}.

(** [map_to_type_and_category] of [extract_final] does not see the case
    of the letters nor the blanks around the text: lowering or stripping
    the type and the category first gives the same result. *)
Theorem extract_final_ignores_case_and_outer_blanks (ty cat : option string) :
  ExtractFinal.map_to_type_and_category
    (text_cell (lower <$> ty)) (text_cell (lower <$> cat))
  = ExtractFinal.map_to_type_and_category (text_cell ty) (text_cell cat) /\
  ExtractFinal.map_to_type_and_category
    (text_cell (strip <$> ty)) (text_cell (strip <$> cat))
  = ExtractFinal.map_to_type_and_category (text_cell ty) (text_cell cat).
Proof.
  rewrite !map_to_type_and_category_text.
  assert (Hl : forall o : option string,
            strip (lower (default "" (lower <$> o)))
            = strip (lower (default "" o))).
  { intros [s|]; [|done]. cbn. by rewrite lower_idemp. }
  assert (Hs : forall o : option string,
            strip (lower (default "" (strip <$> o)))
            = strip (lower (default "" o))).
  { intros [s|]; [|done]. cbn [fmap option_fmap option_map default from_option id].
    rewrite !lower_strip. unfold id. f_equal. apply strip_by_idemp. }
  split; cbv zeta; by rewrite ?Hl, ?Hs.
Qed.

End CaseAndBlanks.

(** ** The width of the sheet *)

Lemma max_column_ge (sh : sheet) (r : row) :
  r ∈ sh -> (length r <= max_column sh)%nat.
Proof.
  unfold max_column. intros Hr.
  enough (length r <= foldr Nat.max 0 (length <$> sh))%nat by lia.
  induction Hr as [r sh|r r' sh _ IH]; cbn [fmap list_fmap foldr];
    fold (length <$> sh); lia.
Qed.

Lemma pad_row_length (w : nat) (r : row) :
  (length r <= w)%nat -> length (pad_row w r) = w.
Proof.
  intros Hle. unfold pad_row. rewrite length_app, length_replicate. lia.
Qed.

Lemma cell_pad_row (w : nat) (r : row) (k : nat) :
  cell (pad_row w r) k = cell r k.
Proof.
  unfold cell, pad_row.
  destruct (decide (k < length r)%nat) as [Hlt|Hge].
  - by rewrite lookup_app_l.
  - rewrite lookup_app_r by lia.
    rewrite (lookup_ge_None_2 r k) by lia. cbn [default from_option id].
    destruct (replicate _ _ !! _) as [v|] eqn:E; [|done].
    by apply lookup_replicate in E as [-> _].
Qed.

Lemma blank_pad_row (w : nat) (r : row) : blank (pad_row w r) = blank r.
Proof.
  unfold blank, pad_row. rewrite existsb_app. f_equal.
  assert (existsb truthy (replicate (w - length r) VNone) = false) as ->;
    [|apply orb_false_r].
  induction (w - length r)%nat as [|n IH]; [done|]. simpl. exact IH.
Qed.

Lemma iter_rows_tail (sh : sheet) :
  tail (iter_rows sh) = pad_row (max_column sh) <$> tail sh.
Proof. unfold iter_rows. by destruct sh. Qed.

Lemma tail_elem_of {A : Type} (x : A) (l : list A) : x ∈ tail l -> x ∈ l.
Proof. destruct l; simpl; [done|]. apply list_elem_of_further. Qed.

Section FinalWidth.
Context `{Runtime}.

Lemma extract_final_body_blank st (r : row) :
  blank r = true -> ExtractFinal.body st r = Ok st.
Proof. unfold blank, ExtractFinal.body. by intros ->. Qed.

Lemma extract_final_body_narrow st (r : row) :
  blank r = false -> (length r < 8)%nat ->
  ExtractFinal.body st r = Raise IndexError.
Proof.
  unfold blank, ExtractFinal.body. intros -> Hlen.
  destruct (row_get r 0) as [v0|e] eqn:G0; cbn [mbind result_bind];
    [|by apply ExtractCorrectDeterminism.row_get_raise in G0 as [-> _]].
  destruct (row_get r 1) as [v1|e] eqn:G1; cbn [mbind result_bind];
    [|by apply ExtractCorrectDeterminism.row_get_raise in G1 as [-> _]].
  destruct (row_get r 2) as [v2|e] eqn:G2; cbn [mbind result_bind];
    [|by apply ExtractCorrectDeterminism.row_get_raise in G2 as [-> _]].
  destruct (row_get r 3) as [v3|e] eqn:G3; cbn [mbind result_bind];
    [|by apply ExtractCorrectDeterminism.row_get_raise in G3 as [-> _]].
  destruct (row_get r 4) as [v4|e] eqn:G4; cbn [mbind result_bind];
    [|by apply ExtractCorrectDeterminism.row_get_raise in G4 as [-> _]].
  destruct (row_get r 7) as [v7|e] eqn:G7; cbn [mbind result_bind];
    [|by apply ExtractCorrectDeterminism.row_get_raise in G7 as [-> _]].
  apply ExtractCorrectDeterminism.row_get_ok in G7 as [_ ?]. lia.
Qed.

Lemma extract_final_loop_narrow (rows : list row) st :
  Forall (fun r => (length r < 8)%nat) rows ->
  for_each ExtractFinal.body st rows
  = if forallb blank rows then Ok st else Raise IndexError.
Proof.
  induction 1 as [|r rows Hr _ IH]; [done|]. cbn [for_each forallb].
  destruct (blank r) eqn:Eb.
  - rewrite (extract_final_body_blank _ _ Eb). cbn [mbind result_bind andb].
    apply IH.
  - by rewrite (extract_final_body_narrow _ _ Eb Hr).
Qed.

(** [extract_final] on a sheet of fewer than eight columns writes no
    record: it ends with the empty list when every row after the header is
    blank, and stops with [IndexError] otherwise. *)
Theorem extract_final_needs_eight_columns (sh : sheet) :
  (max_column sh < 8)%nat ->
  ExtractFinal.extract sh
  = if forallb blank (tail sh) then Ok [] else Raise IndexError.
Proof.
  intros Hw. unfold ExtractFinal.extract.
  rewrite iter_rows_tail, extract_final_loop_narrow.
  - assert (forallb blank (pad_row (max_column sh) <$> tail sh)
            = forallb blank (tail sh)) as ->.
    { induction (tail sh) as [|r l IH]; [done|]. cbn [fmap list_fmap forallb].
      fold (pad_row (max_column sh) <$> l). by rewrite blank_pad_row, IH. }
    by destruct (forallb blank (tail sh)).
  - apply Forall_fmap, Forall_forall. intros r Hr. cbn [compose].
    rewrite pad_row_length; [done|].
    apply max_column_ge. by apply tail_elem_of.
Qed.

Lemma map_to_type_and_category_ok (ty cat : value) :
  text_or_empty ty = true -> text_or_empty cat = true ->
  exists p, ExtractFinal.map_to_type_and_category ty cat = Ok p.
Proof.
  unfold text_or_empty, ExtractFinal.map_to_type_and_category, or_else.
  intros Hty Hcat.
  assert (exists a, (if truthy ty
                     then s ← lower_method ty; mret (strip s)
                     else mret "") = Ok a) as [a ->].
  { destruct (truthy ty); [|by eexists].
    destruct ty; try discriminate. by eexists. }
  assert (exists b, (s ← lower_method (if truthy cat then cat else VStr "");
                     mret (strip s)) = Ok b) as [b ->].
  { destruct (truthy cat); [|by eexists].
    destruct cat; try discriminate. by eexists. }
  by eexists.
Qed.

Lemma map_to_type_and_category_raise (ty cat : value) e :
  ExtractFinal.map_to_type_and_category ty cat = Raise e -> e = AttributeError.
Proof.
  unfold ExtractFinal.map_to_type_and_category, or_else. intros Hm.
  destruct (truthy ty).
  - destruct ty; cbn in Hm; try (by injection Hm as <-).
    destruct (truthy cat); [destruct cat|]; cbn in Hm;
      try discriminate; by injection Hm as <-.
  - cbn [mbind result_bind mret result_ret] in Hm.
    destruct (truthy cat); [destruct cat|]; cbn in Hm;
      try discriminate; by injection Hm as <-.
Qed.

Lemma extract_final_body_outcome st (r : row) :
  (8 <= length r)%nat ->
  (forall e, ExtractFinal.body st r = Raise e -> e = AttributeError) /\
  (text_or_empty (cell r 1) = true -> text_or_empty (cell r 2) = true ->
   exists st', ExtractFinal.body st r = Ok st').
Proof.
  intros Hlen. rewrite extract_final_body_wide by done.
  destruct (negb (existsb truthy r)); [split; [done|by eexists]|].
  destruct (negb (truthy (cell r 0)) || is_none (cell r 4));
    [split; [done|by eexists]|].
  split.
  - intros e.
    destruct (ExtractFinal.map_to_type_and_category _ _) as [p|e'] eqn:Em;
      cbn [mbind result_bind].
    + by destruct (float (cell r 4)).
    + intros [= <-]. by eapply map_to_type_and_category_raise.
  - intros Hty Hcat.
    destruct (map_to_type_and_category_ok _ _ Hty Hcat) as [p ->].
    cbn [mbind result_bind]. destruct (float (cell r 4)); by eexists.
Qed.

(** [extract_final] on a sheet of eight columns or more can only stop
    with [AttributeError]; it completes when the type and category cells of
    every row hold text or count as empty. *)
Theorem extract_final_completes_on_text_cells (sh : sheet) :
  (8 <= max_column sh)%nat ->
  (forall e, ExtractFinal.extract sh = Raise e -> e = AttributeError) /\
  (Forall (fun r => text_or_empty (cell r 1) = true /\
                    text_or_empty (cell r 2) = true) (tail sh) ->
   exists l, ExtractFinal.extract sh = Ok l).
Proof.
  intros Hw. unfold ExtractFinal.extract. rewrite iter_rows_tail.
  assert (Hlen : Forall (fun r => (8 <= length r)%nat)
                        (pad_row (max_column sh) <$> tail sh)).
  { apply Forall_fmap, Forall_forall. intros r Hr. cbn [compose].
    rewrite pad_row_length; [done|].
    apply max_column_ge. by apply tail_elem_of. }
  split.
  - intros e. generalize ExtractFinal.init.
    induction Hlen as [|r rows Hr _ IH]; intros st; [done|].
    cbn [for_each]. destruct (extract_final_body_outcome st r Hr) as [Hraise _].
    destruct (ExtractFinal.body st r) as [st'|e'];
      cbn [mbind result_bind mret result_ret].
    + apply IH.
    + intros [= <-]. by apply Hraise.
  - intros Hcells.
    assert (Hcells' : Forall (fun r => text_or_empty (cell r 1) = true /\
                                       text_or_empty (cell r 2) = true)
                             (pad_row (max_column sh) <$> tail sh)).
    { apply Forall_fmap. eapply Forall_impl; [exact Hcells|].
      intros r. cbn [compose]. by rewrite !cell_pad_row. }
    clear Hcells. generalize ExtractFinal.init.
    induction Hlen as [|r rows Hr _ IH]; intros st; [by eexists|].
    apply Forall_cons in Hcells' as [[Hty Hcat] Hrest].
    cbn [for_each].
    destruct (extract_final_body_outcome st r Hr) as [_ Hok].
    destruct (Hok Hty Hcat) as [st' ->]. cbn [mbind result_bind].
    by apply IH.
Qed.

End FinalWidth.

(** ** extract_correct: the width of the sheet and the rows below 1200 *)

Lemma rows_2_to_1200_length (sh : sheet) :
  length (ExtractCorrect.rows_2_to_1200 sh) = 1199%nat.
Proof.
  unfold ExtractCorrect.rows_2_to_1200.
  rewrite length_take, length_app, length_replicate. lia.
Qed.

Lemma rows_2_to_1200_width (sh : sheet) :
  Forall (fun r => length r = max_column sh) (ExtractCorrect.rows_2_to_1200 sh).
Proof.
  unfold ExtractCorrect.rows_2_to_1200. apply Forall_take, Forall_app. split.
  - rewrite iter_rows_tail. apply Forall_fmap, Forall_forall.
    intros r Hr. cbn [compose]. apply pad_row_length, max_column_ge.
    by apply tail_elem_of.
  - apply Forall_replicate. apply length_replicate.
Qed.

Section CorrectWidth.
Context `{Runtime}.

Lemma extract_correct_body_narrow st (r : row) :
  (length r < 9)%nat -> ExtractCorrect.body st r = Raise IndexError.
Proof.
  intros Hlen.
  pose proof (ExtractCorrectDeterminism.extract_correct_step_body st r) as Hs.
  destruct (ExtractCorrect.body st r) as [st'|e].
  - remember (Ok st') as o eqn:Ho.
    destruct Hs; try discriminate Ho;
      try match goal with
          | Ha : ExtractCorrectRun.admitted _ _ |- _ => destruct Ha as [? _]
          end; lia.
  - remember (Raise e) as o eqn:Ho.
    destruct Hs; try discriminate Ho; [by injection Ho as <-|].
    match goal with
    | Ha : ExtractCorrectRun.admitted _ _ |- _ => destruct Ha as [? _]
    end. lia.
Qed.

Lemma extract_correct_body_outcome st (r : row) :
  (9 <= length r)%nat ->
  (forall e, ExtractCorrect.body st r = Raise e ->
             (e = ValueError \/ e = TypeError) /\
             truthy (cell r 4) = true /\ float (cell r 4) = Raise e) /\
  ((truthy (cell r 4) = true -> exists q, float (cell r 4) = Ok q) ->
   exists st', ExtractCorrect.body st r = Ok st').
Proof.
  intros Hlen.
  pose proof (ExtractCorrectDeterminism.extract_correct_step_body st r) as Hs.
  destruct (ExtractCorrect.body st r) as [st'|e].
  - split; [done|]. by eexists.
  - remember (Raise e) as o eqn:Ho.
    destruct Hs; try discriminate Ho; [lia|]. injection Ho as <-.
    match goal with
    | Ha : ExtractCorrectRun.admitted _ _ |- _ =>
        destruct Ha as (_ & _ & _ & Hamt & _)
    end.
    match goal with
    | Hf : float (cell r 4) = Raise _ |- _ => rename Hf into Hfloat
    end.
    split.
    + intros e' [= <-]. split; [|done].
      unfold float in Hfloat. destruct (cell r 4); try discriminate;
        try (injection Hfloat as <-; by right).
      destruct (float_of_str s); [discriminate|].
      injection Hfloat as <-. by left.
    + intros Hok. destruct (Hok Hamt) as [q Hq]. congruence.
Qed.

(** [extract_correct] stops with [IndexError] on every sheet of fewer
    than nine columns, the empty sheet included, because it always reads
    rows 2 to 1200.  On a wider sheet it can only stop with [ValueError] or
    [TypeError], and it completes when every amount that is not empty is
    one that [float] reads. *)
Theorem extract_correct_needs_nine_columns (sh : sheet) :
  ((max_column sh < 9)%nat -> ExtractCorrect.extract sh = Raise IndexError) /\
  ((9 <= max_column sh)%nat ->
   forall e, ExtractCorrect.extract sh = Raise e ->
             e = ValueError \/ e = TypeError) /\
  ((9 <= max_column sh)%nat ->
   Forall (fun r => truthy (cell r 4) = true ->
                    exists q, float (cell r 4) = Ok q) (tail sh) ->
   exists out, ExtractCorrect.extract sh = Ok out).
Proof.
  pose proof (rows_2_to_1200_width sh) as Hwidth.
  pose proof (rows_2_to_1200_length sh) as Hlen.
  split; [|split].
  - intros Hw. unfold ExtractCorrect.extract.
    destruct (ExtractCorrect.rows_2_to_1200 sh) as [|r rows]; [discriminate|].
    apply Forall_cons in Hwidth as [Hr _]. cbn [for_each].
    rewrite extract_correct_body_narrow by lia. reflexivity.
  - intros Hw e. unfold ExtractCorrect.extract.
    clear Hlen. generalize ExtractCorrect.init.
    induction Hwidth as [|r rows Hr _ IH]; intros st; [done|].
    cbn [for_each].
    destruct (extract_correct_body_outcome st r) as [Hraise _]; [lia|].
    destruct (ExtractCorrect.body st r) as [st'|e'];
      cbn [mbind result_bind mret result_ret].
    + apply IH.
    + intros [= <-]. by destruct (Hraise e' eq_refl) as [? _].
  - intros Hw Hcells. unfold ExtractCorrect.extract.
    assert (Hrows : Forall (fun r => truthy (cell r 4) = true ->
                                     exists q, float (cell r 4) = Ok q)
                           (ExtractCorrect.rows_2_to_1200 sh)).
    { unfold ExtractCorrect.rows_2_to_1200. apply Forall_take, Forall_app.
      split.
      - rewrite iter_rows_tail. apply Forall_fmap.
        eapply Forall_impl; [exact Hcells|].
        intros r. cbn [compose]. by rewrite cell_pad_row.
      - apply Forall_replicate. intros Ht. exfalso.
        unfold cell in Ht.
        destruct (replicate _ _ !! _) as [v|] eqn:E; [|done].
        by apply lookup_replicate in E as [-> _]. }
    clear Hlen Hcells.
    assert (forall st, exists st',
              for_each ExtractCorrect.body st (ExtractCorrect.rows_2_to_1200 sh)
              = Ok st') as Hloop.
    { induction Hwidth as [|r rows Hr _ IH]; intros st; [by eexists|].
      apply Forall_cons in Hrows as [Hrow Hrest]. cbn [for_each].
      destruct (extract_correct_body_outcome st r) as [_ Hok]; [lia|].
      destruct (Hok Hrow) as [st' ->]. cbn [mbind result_bind]. by apply IH. }
    destruct (Hloop ExtractCorrect.init) as [st' ->]. by eexists.
Qed.

Lemma row_get_app (r x : row) (k : nat) :
  (k < length r)%nat -> row_get (r ++ x) k = row_get r k.
Proof. intros Hk. unfold row_get. by rewrite lookup_app_l. Qed.

Lemma extract_correct_body_padded st (r : row) (w : nat) :
  (9 <= length r)%nat ->
  ExtractCorrect.body st (pad_row w r) = ExtractCorrect.body st r.
Proof.
  intros Hlen. unfold ExtractCorrect.body, pad_row.
  by rewrite !row_get_app by lia.
Qed.

Lemma for_each_body_padded (rows : list row) (w : nat) st :
  Forall (fun r => (9 <= length r)%nat) rows ->
  for_each ExtractCorrect.body st (pad_row w <$> rows)
  = for_each ExtractCorrect.body st rows.
Proof.
  intros Hrows. revert st.
  induction Hrows as [|r rows Hr _ IH]; intros st; [done|].
  cbn [fmap list_fmap for_each]. fold (pad_row w <$> rows).
  rewrite extract_correct_body_padded by done.
  destruct (ExtractCorrect.body st r); cbn [mbind result_bind]; [apply IH|done].
Qed.

End CorrectWidth.

Lemma pad_row_pad_row (w w' : nat) (r : row) :
  (length r <= w')%nat -> (w' <= w)%nat ->
  pad_row w (pad_row w' r) = pad_row w r.
Proof.
  intros Hr Hw. unfold pad_row.
  rewrite length_app, length_replicate, <- app_assoc, <- replicate_add.
  by replace (w' - length r + (w - (length r + (w' - length r))))%nat
    with (w - length r)%nat by lia.
Qed.

Lemma max_column_take (n : nat) (sh : sheet) :
  (max_column (take n sh) <= max_column sh)%nat.
Proof.
  unfold max_column.
  enough (foldr Nat.max 0 (length <$> take n sh)
          <= foldr Nat.max 0 (length <$> sh))%nat by lia.
  revert n. induction sh as [|r sh IH]; intros [|n]; cbn [take fmap list_fmap foldr];
    try lia.
  fold (length <$> take n sh). fold (length <$> sh).
  specialize (IH n). lia.
Qed.

Lemma take_app_take {A : Type} (n : nat) (l k : list A) :
  take n (l ++ k) = take n (take n l ++ k).
Proof.
  revert n. induction l as [|x l IH]; intros [|n]; simpl; try done.
  by rewrite <- IH.
Qed.

Lemma take_tail {A : Type} (n : nat) (l : list A) :
  take n (tail l) = tail (take (S n) l).
Proof. destruct l; [by destruct n|done]. Qed.

(** The rows the loop reads are those of the first 1200 sheet rows, widened
    to the width of the whole sheet. *)
Lemma rows_2_to_1200_take (sh : sheet) :
  ExtractCorrect.rows_2_to_1200 sh
  = pad_row (max_column sh) <$> ExtractCorrect.rows_2_to_1200 (take 1200 sh).
Proof.
  unfold ExtractCorrect.rows_2_to_1200.
  set (w := max_column sh). set (w' := max_column (take 1200 sh)).
  assert (Hw : (w' <= w)%nat) by apply max_column_take.
  rewrite !iter_rows_tail. fold w w'.
  rewrite fmap_take, fmap_app, fmap_replicate.
  assert (pad_row w (replicate w' VNone) = replicate w VNone) as ->.
  { unfold pad_row. rewrite length_replicate, <- replicate_add.
    by replace (w' + (w - w'))%nat with w by lia. }
  rewrite (take_app_take _ (pad_row w <$> tail sh)).
  rewrite (take_app_take _ (pad_row w <$> (pad_row w' <$> tail (take 1200 sh)))).
  f_equal. f_equal.
  rewrite <- !fmap_take, take_tail.
  rewrite (take_tail 1199 (take 1200 sh)), take_take.
  change (1200 `min` 1200)%nat with 1200%nat.
  rewrite <- list_fmap_compose.
  apply Forall_fmap_ext, Forall_forall. intros r Hr. cbn [compose].
  symmetry. apply pad_row_pad_row; [|done].
  apply max_column_ge. by apply tail_elem_of.
Qed.

Section CorrectRows.
Context `{Runtime}.

(** [extract_correct] reads sheet rows 2 to 1200 only: when the first
    1200 rows are nine columns wide or more, the rows below them change
    nothing of what the run gives. *)
Theorem extract_correct_reads_rows_2_to_1200_only (sh : sheet) :
  (9 <= max_column (take 1200 sh))%nat ->
  ExtractCorrect.extract sh = ExtractCorrect.extract (take 1200 sh).
Proof.
  intros Hw. unfold ExtractCorrect.extract.
  rewrite rows_2_to_1200_take, for_each_body_padded; [done|].
  eapply Forall_impl; [apply rows_2_to_1200_width|].
  intros r Hr. cbn beta in Hr. lia.
Qed.

End CorrectRows.

(** ** calc_corrected_variance: the dict of parsed records *)







Section ParsedDict.
Context `{Runtime}.


End ParsedDict.

(** ** calc_corrected_variance: which categories get an actual total *)

Lemma accumulate_is_Some (m : gmap string Q) (t : CalcVariance.parsed) (c : string) :
  is_Some (CalcVariance.accumulate m t !! c) <->
  is_Some (m !! c) \/ CalcVariance.category t = c \/
  (c = "income" /\ CalcVariance.type t = "income").
Proof.
  unfold CalcVariance.accumulate.
  set (m' := match m !! CalcVariance.category t with
             | Some _ => m
             | None => <[CalcVariance.category t := 0%Q]> m
             end).
  assert (Hm' : is_Some (m' !! c) <->
                is_Some (m !! c) \/ CalcVariance.category t = c).
  { subst m'. destruct (m !! CalcVariance.category t) eqn:E.
    - split; [by left|]. intros [?|<-]; [done|]. by rewrite E.
    - rewrite lookup_insert_is_Some. 
      destruct (decide (CalcVariance.category t = c)); tauto. }
  destruct (String.eqb_spec (CalcVariance.type t) "income") as [Hi|Hi].
  - rewrite lookup_insert_is_Some, Hm'.
    destruct (decide ("income" = c)) as [<-|?]; [tauto|].
    split; [tauto|]. intros [?|[?|[-> _]]]; tauto.
  - destruct (String.eqb (CalcVariance.type t) "transfer").
    + rewrite Hm'. tauto.
    + rewrite lookup_insert_is_Some, Hm'.
      destruct (decide (CalcVariance.category t = c)); tauto.
Qed.

Lemma foldl_accumulate_is_Some (l : list CalcVariance.parsed)
  (m : gmap string Q) (c : string) :
  is_Some (foldl CalcVariance.accumulate m l !! c) <->
  is_Some (m !! c) \/
  exists p, p ∈ l /\
    (CalcVariance.category p = c \/
     (c = "income" /\ CalcVariance.type p = "income")).
Proof.
  revert m. induction l as [|t l IH]; intros m; simpl.
  - split; [by left|]. intros [?|(p & Hp & _)]; [done|].
    by apply not_elem_of_nil in Hp.
  - rewrite IH, accumulate_is_Some. split.
    + intros [[?|Ht]|(p & Hp & Hc)].
      * by left.
      * right. exists t. split; [apply list_elem_of_here|done].
      * right. exists p. split; [by apply list_elem_of_further|done].
    + intros [?|(p & Hp & Hc)]; [by left; left|].
      apply elem_of_cons in Hp as [->|Hp].
      * left. by right.
      * right. by exists p.
Qed.

(** [calc_corrected_variance]: the table of actual totals has a line for
    a category of its list exactly when some parsed record has that
    category, whatever its type (a category seen only in transfers is
    listed too), or, for income, when some record has the type income. *)
Theorem actual_totals_lists_every_category_seen
  (transactions : list (string * CalcVariance.parsed)) (c : string) :
  c ∈ (CalcVariance.actual_totals (CalcVariance.actuals_of transactions)).*1
  <->
  c ∈ ["income"; "bill"; "giving"; "allowance"; "savings"; "buffer"; "other"] /\
  exists p, p ∈ transactions.*2 /\
    (CalcVariance.category p = c \/
     (c = "income" /\ CalcVariance.type p = "income")).
Proof.
  unfold CalcVariance.actual_totals, CalcVariance.actuals_of.
  set (m := foldl CalcVariance.accumulate ∅ transactions.*2).
  assert (Hm : forall c, is_Some (m !! c) <->
            exists p, p ∈ transactions.*2 /\
              (CalcVariance.category p = c \/
               (c = "income" /\ CalcVariance.type p = "income"))).
  { intros c'. subst m. rewrite foldl_accumulate_is_Some, lookup_empty.
    split; [|by right]. intros [[? ?]|?]; done. }
  rewrite <- Hm. rewrite list_elem_of_fmap. split.
  - intros ([c' v] & -> & Hin). apply list_elem_of_omap in Hin as (c0 & Hc0 & Hv).
    destruct (m !! c0) as [v0|] eqn:E; [|discriminate].
    injection Hv as <- <-. cbn [fst]. split; [done|]. by rewrite E.
  - intros [Hc [v Hv]]. exists (c, v). split; [done|].
    apply list_elem_of_omap. exists c. split; [done|]. by rewrite Hv.
Qed.

(** ** extract_correct: the sort keeps the order within a date *)

Lemma insert_desc_same_date (d : string) (t : Txn.t) (l : list Txn.t) :
  filter (fun u => Txn.date u = d) (ExtractCorrect.insert_desc t l)
  = filter (fun u => Txn.date u = d) (t :: l).
Proof.
  induction l as [|u l IH]; [done|]. cbn [ExtractCorrect.insert_desc].
  destruct (ExtractCorrect.date_geb t u) eqn:E; [done|].
  rewrite filter_cons, IH, !filter_cons.
  destruct (decide (Txn.date u = d)) as [Hu|Hu];
    destruct (decide (Txn.date t = d)) as [Ht|Ht]; try done.
  exfalso. unfold ExtractCorrect.date_geb in E. rewrite Hu, Ht in E.
  destruct (String.leb_total d d); congruence.
Qed.

Lemma sort_desc_same_date (d : string) (l : list Txn.t) :
  filter (fun u => Txn.date u = d) (ExtractCorrect.sort_desc l)
  = filter (fun u => Txn.date u = d) l.
Proof.
  induction l as [|t l IH]; [done|]. cbn [ExtractCorrect.sort_desc foldr].
  fold (ExtractCorrect.sort_desc l).
  by rewrite insert_desc_same_date, !filter_cons, IH.
Qed.

Section StableSort.
Context `{Runtime}.

(** [extract_correct]: the sort by date keeps the records of one date in
    the order in which the loop appended them. *)
Theorem extract_correct_sort_is_stable (sh : sheet) (d : string) :
  match for_each ExtractCorrect.body ExtractCorrect.init
                 (ExtractCorrect.rows_2_to_1200 sh) with
  | Ok st =>
      filter (fun t => Txn.date t = d) (extract_correct_records sh)
      = filter (fun t => Txn.date t = d) (ExtractCorrect.transactions st)
  | Raise _ => extract_correct_records sh = []
  end.
Proof.
  unfold extract_correct_records, ExtractCorrect.extract.
  destruct (for_each _ _ _) as [st|]; cbn [mbind result_bind mret result_ret];
    [|done].
  apply sort_desc_same_date.
Qed.

End StableSort.

(** * Concrete runs

    The scripts run on the small sheets above, with the decimal runtime. *)

#[local] Existing Instance Decimal.runtime.

(** C1, as stated, fails: in [gen_final_transactions] an expense whose
    category is in no table is given the category bill, not other. *)
Lemma C1_counterexample :
  GenFinal.CATEGORY_MAPPING !! "Mystery" = None /\
  gen_final_records mystery_sheet =
    [ {| Txn.id := "txn-1";
         Txn.date := "2026-01-08";
         Txn.label := VStr "Unknown shop";
         Txn.amount := VFloat 20;
         Txn.type := "outflow";
         Txn.category := "bill";
         Txn.notes := VStr "Mystery";
         Txn.linkedRuleId := None |} ].
Proof. split; vm_compute; reflexivity. Qed.

(** The amended C1 at work: an expense whose category text holds gas is a
    bill in [extract_final], by the second entry of the pattern list. *)
Lemma C1_witness :
  ExtractFinal.map_to_type_and_category (VStr "Expense") (VStr " Electricity & GAS ")
    = Ok ("outflow", "bill").
Proof.
  exact (eq_trans
           (proj1 C1_category_resolution (Some "Expense")
              (Some " Electricity & GAS "))
           eq_refl).
Defined.

(** C4 fails on the code: [extract_period1] and [extract_final] write the
    amount with the sign of the cell, here -120.50 for an expense. *)
Lemma C4_signed_amount_is_written :
  extract_period1_records energy_sheet =
    [ {| Txn.id := "txn-1";
         Txn.date := "2026-01-06";
         Txn.label := VStr "Energy";
         Txn.amount := VFloat (-12050 # 100);
         Txn.type := "outflow";
         Txn.category := "bill";
         Txn.notes := VStr "";
         Txn.linkedRuleId := None |} ] /\
  Txn.amount <$> extract_final_records energy_sheet = [VFloat (-12050 # 100)].
Proof. split; vm_compute; reflexivity. Qed.

(** C5 on the code: for the row Tithe, Expense, -410 the record has type
    outflow and category giving in the three scripts, and amount 410 in
    [gen_final_transactions], but amount -410 in [extract_final] and
    [extract_period1]. *)
Lemma C5_tithe_row :
  (fun t => (Txn.type t, Txn.category t, Txn.amount t))
    <$> gen_final_records tithe_sheet = [("outflow", "giving", VFloat 410)] /\
  (fun t => (Txn.type t, Txn.category t, Txn.amount t))
    <$> extract_final_records tithe_sheet = [("outflow", "giving", VFloat (-410))] /\
  (fun t => (Txn.type t, Txn.category t, Txn.amount t))
    <$> extract_period1_records tithe_sheet = [("outflow", "giving", VInt (-410))].
Proof. repeat split; vm_compute; reflexivity. Qed.

(** C6, as stated, fails: [extract_correct] raises on an amount that is no
    number instead of passing the row over, and in [extract_final] a row of
    type Transfer with an unknown category is given the category savings,
    not other. *)
Lemma C6_counterexample :
  ExtractCorrect.extract unreadable_sheet = Raise ValueError /\
  no_pattern_occurs (strip (lower "Mystery")) = true /\
  (fun t => (Txn.type t, Txn.category t))
    <$> extract_final_records mystery_transfer_sheet = [("transfer", "savings")].
Proof. repeat split; vm_compute; reflexivity. Qed.

(** The amended C6 at work: [extract_final] passes over the row whose
    amount is the text abc and ends with no record, and it gives the
    category other to an expense whose category holds no pattern. *)
Lemma C6_witness :
  for_each ExtractFinal.body ExtractFinal.init [unreadable_row]
    = Ok ExtractFinal.init /\
  exists st' t,
    ExtractFinal.body ExtractFinal.init mystery_row = Ok st' /\
    ExtractFinal.transactions st' = [t] /\ Txn.category t = "other".
Proof.
  split.
  - apply (proj1 (proj2 C6_skipped_rows_and_unknown_categories)
             ExtractFinal.init unreadable_row []
             (Some "Expense") (Some "Tithe") ValueError).
    + vm_compute. lia.
    + reflexivity.
    + reflexivity.
    + reflexivity.
  - apply (proj1 (proj2 (proj2 C6_skipped_rows_and_unknown_categories))
             ExtractFinal.init mystery_row
             (Some "Expense") (Some "Mystery") (-20)%Q).
    + vm_compute. lia.
    + reflexivity.
    + reflexivity.
    + reflexivity.
    + reflexivity.
    + reflexivity.
    + reflexivity.
    + reflexivity.
Defined.

(** C7 fails on the code: [gen_final_transactions] writes a transfer with
    no [linkedRuleId] key in the JSON file and with the literal undefined
    in the TypeScript line; [extract_final] writes no key either. *)
Lemma C7_transfer_without_link :
  (exists line,
     GenFinal.extract transfer_sheet =
       Ok {| GenFinal.json :=
               [ {| Txn.id := "txn-1";
                    Txn.date := "2026-01-07";
                    Txn.label := VStr "To savings";
                    Txn.amount := VFloat 200;
                    Txn.type := "transfer";
                    Txn.category := "savings";
                    Txn.notes := VStr "Savings Transfer";
                    Txn.linkedRuleId := None |} ];
             GenFinal.ts_lines := Ok [line] |} /\
     contains "type: " line = true /\
     contains "linkedRuleId: undefined }," line = true) /\
  (fun t => (Txn.type t, Txn.linkedRuleId t))
    <$> extract_final_records transfer_sheet = [("transfer", None)].
Proof.
  split; [eexists; split; [vm_compute; reflexivity|]|];
    repeat split; vm_compute; reflexivity.
Qed.

(** C8, as stated, fails: with one parsed record, a transfer of 100 with
    category savings, the actual total reported for savings is 0 while the
    amounts of the records with category savings sum to 100. *)
Lemma C8_counterexample :
  exists transactions,
    CalcVariance.parse_all [found_transfer] = Ok transactions /\
    (fun t => (CalcVariance.type t, CalcVariance.category t, CalcVariance.amount t))
      <$> transactions.*2 = [("transfer", "savings", 100%Q)] /\
    default 0%Q (CalcVariance.actuals_of transactions !! "savings") = 0%Q /\
    row_actual <$> List.filter (fun r => String.eqb (row_category r) "savings")
                     (CalcVariance.variance_table
                        (CalcVariance.actuals_of transactions)) = [0%Q] /\
    total_where
      (fun t => String.eqb (CalcVariance.category t) "savings")
      (transactions.*2) = 100%Q.
Proof.
  eexists. split; [vm_compute; reflexivity|].
  repeat split; vm_compute; reflexivity.
Qed.

(** C10 at work: a row typed Expense with amount 2000 is written as
    income. *)
Lemma C10_witness :
  exists st' t,
    GenFinal.body GenFinal.init salary_row = Ok st' /\
    GenFinal.transactions st' = [t] /\
    Txn.type t = "income" /\ Txn.category t = "income".
Proof.
  assert (Hf : float (cell salary_row 4) = Ok 2000%Q) by reflexivity.
  assert (Ha : (0 < 2000)%Q) by reflexivity.
  destruct (C10_positive_amount_is_income GenFinal.init salary_row 2000%Q Hf Ha)
    as (_ & Hemit & _).
  exact (Hemit (mkdatetime 2026 1 10 0 0 0 0)
           eq_refl eq_refl eq_refl eq_refl eq_refl).
Defined.





(** [gen_ts_transactions] on the file [extract_correct] writes for the
    sheet with four rows. *)
Lemma gen_ts_on_extract_correct_witness :
  exists out lines,
    ExtractCorrect.extract mixed_sheet = Ok out /\
    GenTs.print_lines (ExtractCorrect.json out) = (lines, Ok tt) /\
    Forall2 (fun t s =>
               (Txn.type t = "transfer" -> Txn.category t = "savings") /\
               if String.eqb (Txn.category t) "savings"
               then ends_with (linked_to "savings") s
               else ends_with not_linked s)
            (ExtractCorrect.json out) lines.
Proof.
  destruct (ExtractCorrect.extract mixed_sheet) as [out|e] eqn:E;
    [|vm_compute in E; discriminate E].
  destruct (gen_ts_links_the_savings_of_extract_correct mixed_sheet out E)
    as (lines & Hp & Hl).
  exists out, lines. split; [reflexivity|]. split; [exact Hp|exact Hl].
Defined.

(** [gen_ts_transactions] on the file [gen_final_transactions] writes for
    the sheet with four rows. *)
Lemma gen_ts_on_gen_final_witness :
  exists out,
    GenFinal.extract mixed_sheet = Ok out /\
    match GenFinal.ts_lines out with
    | Ok ls =>
        GenTs.print_lines (GenFinal.json out) = (ls, Ok tt) /\
        Forall (ends_with not_linked) ls
    | Raise e => (GenTs.print_lines (GenFinal.json out)).2 = Raise e
    end.
Proof.
  destruct (GenFinal.extract mixed_sheet) as [out|e] eqn:E;
    [|vm_compute in E; discriminate E].
  exists out. split; [reflexivity|].
  exact (gen_ts_repeats_the_lines_of_gen_final mixed_sheet out E).
Defined.

(** A sheet of two columns stops [extract_final] at its first data row. *)
Lemma extract_final_narrow_witness :
  ExtractFinal.extract narrow_sheet = Raise IndexError.
Proof.
  exact (eq_trans
           (extract_final_needs_eight_columns narrow_sheet
              ltac:(vm_compute; lia))
           eq_refl).
Defined.

(** [extract_final] completes on the sheet with four rows. *)
Lemma extract_final_completes_witness :
  exists l, ExtractFinal.extract mixed_sheet = Ok l.
Proof.
  apply (proj2 (extract_final_completes_on_text_cells mixed_sheet
                  ltac:(vm_compute; lia))).
  repeat constructor.
Defined.

(** The row below sheet row 1200 is not read. *)
Lemma extract_correct_rows_witness :
  ExtractCorrect.extract long_sheet
  = ExtractCorrect.extract (take 1200 long_sheet).
Proof.
  apply extract_correct_reads_rows_2_to_1200_only. vm_compute. lia.
Defined.
